(** * n8n-mcp-server: the tool handlers of [src/index.ts]

    A shallow embedding of the request/response translation layer of
    [N8nMcpServer]: the [CallToolRequestSchema] handler, the four tool
    handlers, [determineExecutionStatus], [handleAxiosError] and
    [handleError], together with the JavaScript notions they rest on
    (truthiness, property reads, [String(...)], [JSON.stringify]). *)

From Stdlib Require Import ZArith List String Ascii Bool Lia DecimalString.
From ExtLib Require Import Structures.Monad Structures.MonadExc.
Import ListNotations.
Import MonadNotation.

#[local] Set Warnings "-register-all".

Local Open Scope Z_scope.
Local Open Scope string_scope.
Local Open Scope monad_scope.

(** ** JavaScript values

    The values that travel through the handlers are JSON documents received
    from upstream and object literals built from them.  TypeScript interfaces
    are erased at run time, so a record is whatever object upstream sent; the
    interfaces [N8nWorkflow], [N8nExecution] and [N8nWorkflowDetail] only name
    the properties the handlers read.  Numbers are modelled on their integer
    values.  An object is the list of its own properties in insertion order,
    which is the order [JSON.stringify] prints them in. *)
Module Js.

Inductive value : Type :=
| VUndefined
| VNull
| VBool (b : bool)
| VNum (z : Z)
| VStr (s : string)
| VArr (elements : list value)
| VObj (properties : list (string * value)).

Definition object : Type := list (string * value).

(** [o.k] on an object: the property named [k], [undefined] if none.  (An
    object read by [JSON.parse] or written as a literal has no name twice.) *)
Fixpoint get (o : object) (k : string) : value :=
  match o with
  | [] => VUndefined
  | (k', v) :: rest => if String.eqb k' k then v else get rest k
  end.

(** [v?.k]: [undefined] on [null] and [undefined], the property read on an
    object.  The handlers only chain through [data], [resultData], [error]
    and [message], which no primitive and no array carries, so the read on
    any other value is [undefined]. *)
Definition opt_get (v : value) (k : string) : value :=
  match v with
  | VObj o => get o k
  | _ => VUndefined
  end.

(** ToBoolean. *)
Definition truthy (v : value) : bool :=
  match v with
  | VUndefined | VNull => false
  | VBool b => b
  | VNum z => negb (Z.eqb z 0)
  | VStr s => negb (String.eqb s "")
  | VArr _ | VObj _ => true
  end.

(** [a || b]. *)
Definition or_else (a b : value) : value := if truthy a then a else b.

Definition keys (o : object) : list string := map fst o.

Definition has_key (o : object) (k : string) : bool :=
  existsb (String.eqb k) (keys o).

(** *** Text *)

Definition join (sep : string) (parts : list string) : string :=
  String.concat sep parts.

(** Number::toString on an integer value (decimal digits, a leading [-]). *)
Definition string_of_Z (z : Z) : string := NilZero.string_of_int (Z.to_int z).

(** [String(v)], as a template literal applies it. *)
Fixpoint ToString (v : value) : string :=
  match v with
  | VUndefined => "undefined"
  | VNull => "null"
  | VBool true => "true"
  | VBool false => "false"
  | VNum z => string_of_Z z
  | VStr s => s
  | VArr xs =>
      join ","
        (map (fun x => match x with
                       | VUndefined | VNull => ""
                       | _ => ToString x
                       end) xs)
  | VObj _ => "[object Object]"
  end.

(** *** JSON.stringify *)

Definition quote_char : ascii := ascii_of_nat 34.
Definition backslash : ascii := ascii_of_nat 92.
Definition newline : string := String (ascii_of_nat 10) "".

Definition hex_digit (n : nat) : ascii :=
  ascii_of_nat (if Nat.ltb n 10 then 48 + n else 87 + n).

(** QuoteJSONString on one character. *)
Definition escape_char (c : ascii) : string :=
  let n := nat_of_ascii c in
  if Nat.eqb n 8 then "\b"
  else if Nat.eqb n 9 then "\t"
  else if Nat.eqb n 10 then "\n"
  else if Nat.eqb n 12 then "\f"
  else if Nat.eqb n 13 then "\r"
  else if Nat.eqb n 34 then String backslash (String quote_char "")
  else if Nat.eqb n 92 then "\\"
  else if Nat.ltb n 32 then
    "\u00" ++ String (hex_digit (Nat.div n 16)) (String (hex_digit (Nat.modulo n 16)) "")
  else String c "".

Fixpoint escape (s : string) : string :=
  match s with
  | EmptyString => ""
  | String c rest => escape_char c ++ escape rest
  end.

Definition quote (s : string) : string :=
  String quote_char (escape s ++ String quote_char "").

(** What [JSON.stringify] keeps of a value: a property whose value is
    [undefined] is left out, an [undefined] array element becomes [null]. *)
Fixpoint JSON_document (v : value) : value :=
  match v with
  | VArr xs =>
      VArr (map (fun x => match x with
                          | VUndefined => VNull
                          | _ => JSON_document x
                          end) xs)
  | VObj o =>
      VObj ((fix members (o : object) : object :=
               match o with
               | [] => []
               | (k, VUndefined) :: rest => members rest
               | (k, x) :: rest => (k, JSON_document x) :: members rest
               end) o)
  | _ => v
  end.

Definition is_undefined (v : value) : bool :=
  match v with
  | VUndefined => true
  | _ => false
  end.

(** The properties of the document of an object. *)
Definition document_members (o : object) : object :=
  match JSON_document (VObj o) with
  | VObj members => members
  | _ => []
  end.

(** SerializeJSONObject / SerializeJSONArray: the brackets around the
    printed members, on one line without a gap, one member per line with. *)
Definition bracket (opening closing gap indent : string) (members : list string)
  : string :=
  match members with
  | [] => opening ++ closing
  | _ =>
      if String.eqb gap "" then opening ++ join "," members ++ closing
      else
        opening ++ newline ++ indent ++ gap
          ++ join ("," ++ newline ++ indent ++ gap) members
          ++ newline ++ indent ++ closing
  end.

(** SerializeJSONProperty on a document. *)
Fixpoint JSON_print (gap indent : string) (v : value) : string :=
  match v with
  | VUndefined | VNull => "null"
  | VBool true => "true"
  | VBool false => "false"
  | VNum z => string_of_Z z
  | VStr s => quote s
  | VArr xs => bracket "[" "]" gap indent (map (JSON_print gap (indent ++ gap)) xs)
  | VObj o =>
      bracket "{" "}" gap indent
        (map (fun p => quote (fst p) ++ (if String.eqb gap "" then ":" else ": ")
                         ++ JSON_print gap (indent ++ gap) (snd p)) o)
  end.

(** [JSON.stringify(v)] (no gap) and [JSON.stringify(v, null, 2)] (a gap of
    two spaces) on a value other than [undefined]; [index.ts] applies it to
    object literals and to a truthy response body only. *)
Definition JSON_stringify (gap : string) (v : value) : string :=
  JSON_print gap "" (JSON_document v).

End Js.
Import Js.

(** ** The server *)
Module N8nMcpServer.

(** The members of the SDK's [ErrorCode] that [index.ts] uses. *)
Inductive ErrorCode : Type :=
| InvalidRequest
| MethodNotFound
| InvalidParams
| InternalError.

(** [error.response] of an [AxiosError]: the status line and the body. *)
Record AxiosResponse : Type := {
  response_status : Z;
  response_data : value
}.

(** What a [catch] clause can receive.  [McpError code message] is
    [new McpError(code, message)]; [AxiosError] is an error for which
    [axios.isAxiosError] holds, with [response] absent when no response was
    received; [Error] is any other instance of [Error]; [Thrown] is a thrown
    value that is no [Error]. *)
Inductive Exn : Type :=
| McpError (code : ErrorCode) (message : string)
| AxiosError (response : option AxiosResponse) (message : string)
| Error (message : string)
| Thrown (v : value).

(** [error instanceof Error ? error.message : String(error)].  For an
    [McpError] this is the text its constructor was given; no path of
    [index.ts] reads the message of an [McpError]. *)
Definition error_text (error : Exn) : string :=
  match error with
  | McpError _ message => message
  | AxiosError _ message => message
  | Error message => message
  | Thrown v => ToString v
  end.

Definition is_McpError (error : Exn) : bool :=
  match error with
  | McpError _ _ => true
  | _ => false
  end.

(** The result of a tool call: [{ content: [{ type, text }], isError? }]. *)
Record TextContent : Type := {
  type : string;
  text : string
}.

Record CallToolResult : Type := {
  content : list TextContent;
  isError : option bool
}.

(** [{ content: [{ type: "text", text: JSON.stringify(payload, null, 2) }] }] *)
Definition text_result (payload : value) : CallToolResult :=
  {| content := [ {| type := "text"; text := JSON_stringify "  " payload |} ];
     isError := None |}.

(** *** determineExecutionStatus *)

Inductive ExecutionStatus : Type :=
| success
| error
| waiting
| running.

Definition status_text (s : ExecutionStatus) : string :=
  match s with
  | success => "success"
  | error => "error"
  | waiting => "waiting"
  | running => "running"
  end.

(** [execution.data?.resultData?.error] *)
Definition result_error (execution : object) : value :=
  opt_get (opt_get (get execution "data") "resultData") "error".

Definition determineExecutionStatus (execution : object) : ExecutionStatus :=
  if truthy (get execution "waitTill") then waiting
  else if negb (truthy (get execution "finished")) then running
  else if truthy (result_error execution) then error
  else if truthy (get execution "finished") && truthy (get execution "stoppedAt")
       then success
  else error.

(** *** handleAxiosError and handleError *)

(** The [message] constant of [handleAxiosError]: the body of the response
    printed by [JSON.stringify] when there is a truthy one, the error's own
    text otherwise. *)
Definition upstream_message (response : option AxiosResponse) (message : string)
  : string :=
  match response with
  | Some r =>
      if truthy (response_data r) then JSON_stringify "" (response_data r)
      else message
  | None => message
  end.

(** [handleAxiosError] never returns: the value computed here is the
    [McpError] it throws. *)
Definition handleAxiosError (error : Exn) (context : string) : Exn :=
  match error with
  | AxiosError response message =>
      let status := option_map response_status response in
      let message := upstream_message response message in
      match status with
      | Some 401 | Some 403 =>
          McpError InvalidRequest
            ("Authentication failed: " ++ message
               ++ ". Please check your N8N_API_KEY.")
      | Some 404 => McpError InvalidRequest ("Resource not found: " ++ message)
      | _ => McpError InternalError (context ++ ": " ++ message)
      end
  | _ => McpError InternalError (context ++ ": " ++ error_text error)
  end.

Definition handleError (error : Exn) : CallToolResult :=
  let errorMessage := error_text error in
  {| content :=
       [ {| type := "text";
            text := JSON_stringify "  "
                      (VObj [("success", VBool false);
                             ("error", VStr errorMessage)]) |} ];
     isError := Some true |}.

(** *** The upstream client

    One constructor per call of [axiosInstance] in the handlers. *)
Inductive Request : Type :=
| GET_workflows
| GET_workflow (workflowId : string)
| GET_executions (workflowId : string) (limit : Z)
| POST_activate (workflowId : string) (body : value)
| POST_test (workflowId : string) (body : value).

Inductive Method : Type := GET | POST.

Definition method (r : Request) : Method :=
  match r with
  | GET_workflows | GET_workflow _ | GET_executions _ _ => GET
  | POST_activate _ _ | POST_test _ _ => POST
  end.

(** The path handed to [axiosInstance], relative to [<N8N_URL>/api/v1]. *)
Definition url (r : Request) : string :=
  match r with
  | GET_workflows => "/workflows"
  | GET_workflow workflowId => "/workflows/" ++ workflowId
  | GET_executions _ _ => "/executions"
  | POST_activate workflowId _ => "/workflows/" ++ workflowId ++ "/activate"
  | POST_test workflowId _ => "/workflows/" ++ workflowId ++ "/test"
  end.

(** The [params] option of the call. *)
Definition params (r : Request) : object :=
  match r with
  | GET_executions workflowId limit =>
      [("workflowId", VStr workflowId); ("limit", VNum limit)]
  | _ => []
  end.

(** [response.data.data] of a call that succeeded, of the shape the call's
    type parameter declares: an array of records, one record, or anything. *)
Definition Response (r : Request) : Type :=
  match r with
  | GET_workflows => list object
  | GET_workflow _ => object
  | GET_executions _ _ => list object
  | POST_activate _ _ => value
  | POST_test _ _ => object
  end.

(** The arguments of a tool call, each of the type the tool's [inputSchema]
    and the handler's casts give it, each possibly absent. *)
Record Arguments : Type := {
  workflow_id : option string;
  limit : option Z;
  data : option object
}.

(** [request.params] of a [CallToolRequest]. *)
Record CallToolParams : Type := {
  name : string;
  arguments : option Arguments
}.

(** [args?.workflow_id], [args?.limit], [args?.data] *)
Definition args_workflow_id (args : option Arguments) : option string :=
  match args with Some a => workflow_id a | None => None end.

Definition args_limit (args : option Arguments) : option Z :=
  match args with Some a => limit a | None => None end.

Definition args_data (args : option Arguments) : option object :=
  match args with Some a => data a | None => None end.

(** An optional object as the value it is at run time. *)
Definition of_option_object (o : option object) : value :=
  match o with Some o => VObj o | None => VUndefined end.

(** *** Handlers

    A handler runs against an upstream platform: a state [World] and a
    function that answers a request in a state, by a response or by the
    error the call rejects with, and moves to the next state.  A run
    threads the upstream state and the list of the requests issued so far;
    a thrown error leaves both as they are at the throw. *)
Section Handlers.

Variable World : Type.
Variable upstream : World -> forall r : Request, (Exn + Response r) * World.

Record State : Type := {
  world : World;
  calls : list Request
}.

Definition M (A : Type) : Type := State -> (Exn + A) * State.

Definition M_ret {A : Type} (a : A) : M A := fun s => (inr a, s).

Definition M_bind {A B : Type} (m : M A) (k : A -> M B) : M B :=
  fun s =>
    match m s with
    | (inr a, s') => k a s'
    | (inl e, s') => (inl e, s')
    end.

(** [throw e] *)
Definition M_raise {A : Type} (e : Exn) : M A := fun s => (inl e, s).

(** [try { m } catch (error) { handler(error) }] *)
Definition M_catch {A : Type} (m : M A) (handler : Exn -> M A) : M A :=
  fun s =>
    match m s with
    | (inr a, s') => (inr a, s')
    | (inl e, s') => handler e s'
    end.

#[local] Instance Monad_M : Monad M := {| ret := @M_ret; bind := @M_bind |}.

#[local] Instance Exc_M : MonadExc Exn M :=
  {| raise := @M_raise; catch := @M_catch |}.

(** [await this.axiosInstance.get(...)] / [.post(...)], then [.data.data]. *)
Definition send (r : Request) : M (Response r) :=
  fun s =>
    let (answer, w) := upstream (world s) r in
    (answer, {| world := w; calls := calls s ++ [r] |}).

(** The callback of [response.data.data.map] in [listWorkflows]. *)
Definition workflow_summary (workflow : object) : object :=
  [("id", get workflow "id");
   ("name", get workflow "name");
   ("active", get workflow "active");
   ("createdAt", get workflow "createdAt");
   ("updatedAt", get workflow "updatedAt");
   ("tags", get workflow "tags")].

Definition listWorkflows : M CallToolResult :=
  catch
    (response <- send GET_workflows ;;
     let workflows := map workflow_summary response in
     ret (text_result
            (VObj [("success", VBool true);
                   ("count", VNum (Z.of_nat (List.length workflows)));
                   ("workflows", VArr (map VObj workflows))])))
    (fun error => raise (handleAxiosError error "Failed to list workflows")).

(** The [workflow] object literal of [getWorkflow]. *)
Definition workflow_detail (workflow : object) : object :=
  [("id", get workflow "id");
   ("name", get workflow "name");
   ("active", get workflow "active");
   ("nodes", get workflow "nodes");
   ("connections", get workflow "connections");
   ("settings", get workflow "settings");
   ("staticData", get workflow "staticData");
   ("tags", get workflow "tags");
   ("createdAt", get workflow "createdAt");
   ("updatedAt", get workflow "updatedAt")].

Definition getWorkflow (workflowId : string) : M CallToolResult :=
  catch
    (workflow <- send (GET_workflow workflowId) ;;
     ret (text_result
            (VObj [("success", VBool true);
                   ("workflow", VObj (workflow_detail workflow))])))
    (fun error =>
       raise (handleAxiosError error ("Failed to get workflow " ++ workflowId))).

(** [Math.min(Math.max(1, limit || 10), 100)], after the default [limit = 10]
    of the parameter has replaced an absent argument. *)
Definition validLimit (limit : option Z) : Z :=
  let limit := match limit with Some l => l | None => 10 end in
  Z.min (Z.max 1 (if Z.eqb limit 0 then 10 else limit)) 100.

(** The callback of [response.data.data.map] in [getExecutions]. *)
Definition execution_summary (execution : object) : object :=
  [("id", get execution "id");
   ("workflowId", get execution "workflowId");
   ("finished", get execution "finished");
   ("mode", get execution "mode");
   ("startedAt", get execution "startedAt");
   ("stoppedAt", get execution "stoppedAt");
   ("status", VStr (status_text (determineExecutionStatus execution)));
   ("error", or_else (opt_get (result_error execution) "message") VNull)].

Definition getExecutions (workflowId : string) (limit : option Z)
  : M CallToolResult :=
  catch
    (response <- send (GET_executions workflowId (validLimit limit)) ;;
     let executions := map execution_summary response in
     ret (text_result
            (VObj [("success", VBool true);
                   ("workflowId", VStr workflowId);
                   ("count", VNum (Z.of_nat (List.length executions)));
                   ("executions", VArr (map VObj executions))])))
    (fun error =>
       raise (handleAxiosError error
                ("Failed to get executions for workflow " ++ workflowId))).

(** The body of the test call: [{ workflowData, runData: data }]. *)
Definition test_body (workflow : object) (data : option object) : value :=
  VObj [("workflowData", VObj workflow); ("runData", of_option_object data)].

Definition triggerWorkflow (workflowId : string) (data : option object)
  : M CallToolResult :=
  catch
    (response <-
       send (POST_activate workflowId
               (or_else (of_option_object data) (VObj []))) ;;
     workflowResponse <- send (GET_workflow workflowId) ;;
     executionId <-
       (if truthy (get workflowResponse "active") then
          testResponse <-
            send (POST_test workflowId (test_body workflowResponse data)) ;;
          ret (get testResponse "executionId")
        else
          testResponse <-
            send (POST_test workflowId (test_body workflowResponse data)) ;;
          ret (get testResponse "executionId")) ;;
     ret (text_result
            (VObj [("success", VBool true);
                   ("message", VStr "Workflow triggered successfully");
                   ("workflowId", VStr workflowId);
                   ("executionId", executionId);
                   ("workflowActive", get workflowResponse "active")])))
    (fun error =>
       raise (handleAxiosError error
                ("Failed to trigger workflow " ++ workflowId))).

(** *** The handler of [CallToolRequestSchema] *)

Definition workflow_id_required : Exn :=
  McpError InvalidParams "workflow_id is required".

(** The [switch (name)] inside the [try]. *)
Definition route (params : CallToolParams) : M CallToolResult :=
  let args := arguments params in
  if String.eqb (name params) "list_workflows" then listWorkflows
  else if String.eqb (name params) "get_workflow" then
    match args_workflow_id args with
    | Some workflowId =>
        if negb (truthy (VStr workflowId)) then raise workflow_id_required
        else getWorkflow workflowId
    | None => raise workflow_id_required
    end
  else if String.eqb (name params) "get_executions" then
    match args_workflow_id args with
    | Some workflowId =>
        if negb (truthy (VStr workflowId)) then raise workflow_id_required
        else getExecutions workflowId (args_limit args)
    | None => raise workflow_id_required
    end
  else if String.eqb (name params) "trigger_workflow" then
    match args_workflow_id args with
    | Some workflowId =>
        if negb (truthy (VStr workflowId)) then raise workflow_id_required
        else triggerWorkflow workflowId (args_data args)
    | None => raise workflow_id_required
    end
  else raise (McpError MethodNotFound ("Unknown tool: " ++ name params)).

(** [try { body } catch (error) { if (error instanceof McpError) throw error;
    return this.handleError(error); }] *)
Definition boundary (body : M CallToolResult) : M CallToolResult :=
  catch body
    (fun error =>
       if is_McpError error then raise error else ret (handleError error)).

Definition CallToolHandler (params : CallToolParams) : M CallToolResult :=
  boundary (route params).

End Handlers.

End N8nMcpServer.

Import N8nMcpServer.

Arguments State World : clear implicits.
Arguments Build_State {World} world calls.
Arguments world {World} s.
Arguments calls {World} s.
Arguments M World A : clear implicits.
Arguments send {World} upstream r s.
Arguments listWorkflows {World} upstream s.
Arguments getWorkflow {World} upstream workflowId s.
Arguments getExecutions {World} upstream workflowId limit s.
Arguments triggerWorkflow {World} upstream workflowId data s.
Arguments route {World} upstream params s.
Arguments boundary {World} body s.
Arguments CallToolHandler {World} upstream params s.

(** ** A small upstream platform

    A concrete upstream to run the handlers against: it holds workflows and
    executions, numbers the executions it starts, and can be set to reject
    every call with a given error. *)
Module Platform.

Record World : Type := {
  workflows : list object;
  executions : list object;
  next_execution : Z;
  fault : option Exn
}.

Definition has_id (field id : string) (record : object) : bool :=
  match get record field with
  | VStr s => String.eqb s id
  | _ => false
  end.

Definition not_found : Exn :=
  AxiosError
    (Some {| response_status := 404;
             response_data := VObj [("message", VStr "Not Found")] |})
    "Request failed with status code 404".

Definition unauthorized : Exn :=
  AxiosError
    (Some {| response_status := 401;
             response_data := VObj [("message", VStr "unauthorized")] |})
    "Request failed with status code 401".

Definition set_active (id : string) (workflow : object) : object :=
  if has_id "id" id workflow then
    map (fun p => if String.eqb (fst p) "active" then (fst p, VBool true) else p)
      workflow
  else workflow.

Definition answer (w : World) (r : Request) : (Exn + Response r) * World :=
  match fault w with
  | Some e => (inl e, w)
  | None =>
      match r as r return (Exn + Response r) * World with
      | GET_workflows => (inr (workflows w), w)
      | GET_workflow id =>
          match find (has_id "id" id) (workflows w) with
          | Some workflow => (inr workflow, w)
          | None => (inl not_found, w)
          end
      | GET_executions id limit =>
          (inr (firstn (Z.to_nat limit)
                  (filter (has_id "workflowId" id) (executions w))), w)
      | POST_activate id body =>
          match find (has_id "id" id) (workflows w) with
          | Some workflow =>
              (inr (VObj (set_active id workflow)),
               {| workflows := map (set_active id) (workflows w);
                  executions := executions w;
                  next_execution := next_execution w;
                  fault := fault w |})
          | None => (inl not_found, w)
          end
      | POST_test id body =>
          (inr [("executionId", VStr (string_of_Z (next_execution w)))],
           {| workflows := workflows w;
              executions := executions w;
              next_execution := next_execution w + 1;
              fault := fault w |})
      end
  end.

Definition invoice_sync : object :=
  [("id", VStr "wf1"); ("name", VStr "Invoice sync"); ("active", VBool false);
   ("createdAt", VStr "2024-01-01T00:00:00.000Z");
   ("nodes", VArr [VObj [("type", VStr "n8n-nodes-base.manualTrigger")]]);
   ("connections", VObj [])].

Definition nightly_report : object :=
  [("id", VStr "wf2"); ("name", VStr "Nightly report"); ("active", VBool true);
   ("tags", VArr [VObj [("id", VStr "t1"); ("name", VStr "reports")]]);
   ("nodes", VArr []); ("connections", VObj [])].

(** A finished run, a run still going (no [stoppedAt]), a finished run that
    failed with an empty message, and a run that stopped with an error while
    [finished] is still false. *)
Definition run_done : object :=
  [("id", VStr "101"); ("workflowId", VStr "wf1"); ("finished", VBool true);
   ("mode", VStr "manual"); ("startedAt", VStr "2024-01-01T00:00:00.000Z");
   ("stoppedAt", VStr "2024-01-01T00:01:00.000Z"); ("retryOf", VStr "100")].

Definition run_going : object :=
  [("id", VStr "102"); ("workflowId", VStr "wf1"); ("finished", VBool false);
   ("mode", VStr "trigger"); ("startedAt", VStr "2024-01-02T00:00:00.000Z")].

Definition empty_error : value :=
  VObj [("resultData", VObj [("error", VObj [("message", VStr "")])])].

Definition run_failed : object :=
  [("id", VStr "103"); ("workflowId", VStr "wf1"); ("finished", VBool true);
   ("mode", VStr "manual"); ("startedAt", VStr "2024-01-03T00:00:00.000Z");
   ("stoppedAt", VStr "2024-01-03T00:00:05.000Z"); ("data", empty_error)].

Definition run_crashed : object :=
  [("id", VStr "104"); ("workflowId", VStr "wf1"); ("finished", VBool false);
   ("mode", VStr "manual"); ("startedAt", VStr "2024-01-04T00:00:00.000Z");
   ("stoppedAt", VStr "2024-01-04T00:00:05.000Z"); ("data", empty_error)].

(** A run whose [waitTill] is the empty string. *)
Definition run_blank_wait : object :=
  [("id", VStr "105"); ("workflowId", VStr "wf1"); ("finished", VBool true);
   ("mode", VStr "manual"); ("startedAt", VStr "2024-01-05T00:00:00.000Z");
   ("stoppedAt", VStr "2024-01-05T00:00:05.000Z"); ("waitTill", VStr "")].

Definition initial : World :=
  {| workflows := [invoice_sync; nightly_report];
     executions := [run_done; run_going; run_failed; run_crashed];
     next_execution := 200;
     fault := None |}.

Definition failing (e : Exn) : World :=
  {| workflows := workflows initial;
     executions := executions initial;
     next_execution := next_execution initial;
     fault := Some e |}.

(** The platform some runs later: other executions, another counter, the
    same workflows. *)
Definition later : World :=
  {| workflows := workflows initial;
     executions := [run_blank_wait];
     next_execution := 207;
     fault := None |}.

Definition start (w : World) : State World := {| world := w; calls := [] |}.

(** The outcome of asking for a workflow the platform does not have. *)
Definition not_found_error : Exn :=
  handleAxiosError not_found "Failed to get workflow wf9".

Definition after_missing : State World :=
  {| world := initial; calls := [GET_workflow "wf9"] |}.

End Platform.

(** ** Vocabulary of the properties *)

(** The state a run reaches from [s]: the upstream state [w], and the
    requests [issued] added to the ones issued before. *)
Definition after {World : Type} (s : State World) (w : World)
  (issued : list Request) : State World :=
  {| world := w; calls := calls s ++ issued |}.

(** The limit as the specification words it: [min(max(1, limit_or_default),
    100)], where [limit_or_default] is the limit, or 10 when none is given. *)
Definition stated_limit (limit : option Z) : Z :=
  let limit_or_default := match limit with Some l => l | None => 10 end in
  Z.min (Z.max 1 limit_or_default) 100.

(** The status as the specification orders it, first match wins, on the four
    fields it names, a field counting as set when it is truthy. *)
Definition status_by_precedence (waitTill finished resultError stoppedAt : value)
  : ExecutionStatus :=
  if truthy waitTill then waiting
  else if negb (truthy finished) then running
  else if truthy resultError then error
  else if truthy finished && truthy stoppedAt then success
  else error.

Definition summary_fields : list string :=
  ["id"; "name"; "active"; "createdAt"; "updatedAt"; "tags"].

Definition execution_fields : list string :=
  ["id"; "workflowId"; "finished"; "mode"; "startedAt"; "stoppedAt";
   "status"; "error"].

(** The fields of an execution record that are copied from upstream. *)
Definition copied_fields : list string :=
  ["id"; "workflowId"; "finished"; "mode"; "startedAt"; "stoppedAt"].

(** An object as [JSON.stringify] prints it. *)
Definition printed (o : object) : value := JSON_document (VObj o).

(** The payloads of the four handlers. *)
Definition workflows_payload (response : list object) : value :=
  VObj [("success", VBool true);
        ("count", VNum (Z.of_nat (List.length response)));
        ("workflows", VArr (map VObj (map workflow_summary response)))].

Definition workflow_payload (workflow : object) : value :=
  VObj [("success", VBool true); ("workflow", VObj (workflow_detail workflow))].

Definition executions_payload (workflowId : string) (response : list object)
  : value :=
  VObj [("success", VBool true);
        ("workflowId", VStr workflowId);
        ("count", VNum (Z.of_nat (List.length response)));
        ("executions", VArr (map VObj (map execution_summary response)))].

Definition trigger_payload (workflowId : string) (workflow testResponse : object)
  : value :=
  VObj [("success", VBool true);
        ("message", VStr "Workflow triggered successfully");
        ("workflowId", VStr workflowId);
        ("executionId", get testResponse "executionId");
        ("workflowActive", get workflow "active")].

(** The three requests of [triggerWorkflow]. *)
Definition activate_request (workflowId : string) (data : option object)
  : Request :=
  POST_activate workflowId
    (match data with Some d => VObj d | None => VObj [] end).

Definition test_request (workflowId : string) (workflow : object)
  (data : option object) : Request :=
  POST_test workflowId
    (VObj [("workflowData", VObj workflow);
           ("runData", match data with Some d => VObj d | None => VUndefined end)]).

(** ** Construction and the list of tools *)
Module Setup.

(** The two variables the constructor reads from [process.env]; a variable
    that is not set is absent. *)
Record Env : Type := {
  N8N_URL : option string;
  N8N_API_KEY : option string
}.

(** [process.env.X || ""]: the variable, the empty string when it is not
    set (or set to the empty string). *)
Definition or_empty (v : option string) : string :=
  match v with
  | Some s => s
  | None => ""
  end.

(** [s.replace(/\/$/, "")]: a slash that ends the string is removed. *)
Fixpoint strip_trailing_slash (s : string) : string :=
  match s with
  | EmptyString => EmptyString
  | String c EmptyString =>
      if Ascii.eqb c "/" then EmptyString else String c EmptyString
  | String c rest => String c (strip_trailing_slash rest)
  end.

(** The configuration handed to [axios.create]. *)
Record AxiosConfig : Type := {
  baseURL : string;
  headers : list (string * string);
  timeout : Z
}.

(** The fields of an [N8nMcpServer] the constructor has set, and the name
    and version it gives the MCP server. *)
Record Server : Type := {
  n8nUrl : string;
  apiKey : string;
  axiosInstance : AxiosConfig;
  server_name : string;
  server_version : string
}.

(** [new N8nMcpServer()]: the server, or the [Error] the constructor
    throws. *)
Definition constructor (env : Env) : Exn + Server :=
  let n8nUrl := or_empty (N8N_URL env) in
  let apiKey := or_empty (N8N_API_KEY env) in
  if negb (truthy (VStr n8nUrl)) then
    inl (Error "N8N_URL environment variable is required")
  else if negb (truthy (VStr apiKey)) then
    inl (Error "N8N_API_KEY environment variable is required")
  else
    let n8nUrl := strip_trailing_slash n8nUrl in
    inr {| n8nUrl := n8nUrl;
           apiKey := apiKey;
           axiosInstance :=
             {| baseURL := n8nUrl ++ "/api/v1";
                headers := [("X-N8N-API-KEY", apiKey);
                            ("Content-Type", "application/json")];
                timeout := 30000 |};
           server_name := "n8n-mcp-server";
           server_version := "1.0.0" |}.

(** The [tools] array of the [ListToolsRequestSchema] handler. *)
Definition workflow_id_property (description : string) : string * value :=
  ("workflow_id",
   VObj [("type", VStr "string"); ("description", VStr description)]).

Definition tools : list object :=
  [ [("name", VStr "list_workflows");
     ("description",
      VStr "Get all workflows with their IDs, names, and active status. Returns a list of all workflows in your n8n instance.");
     ("inputSchema",
      VObj [("type", VStr "object");
            ("properties", VObj []);
            ("required", VArr [])])];
    [("name", VStr "get_workflow");
     ("description",
      VStr "Fetch the complete JSON definition of a specific workflow by ID. This includes all nodes, connections, and settings.");
     ("inputSchema",
      VObj [("type", VStr "object");
            ("properties",
             VObj [workflow_id_property "The ID of the workflow to fetch"]);
            ("required", VArr [VStr "workflow_id"])])];
    [("name", VStr "get_executions");
     ("description",
      VStr "Get recent execution history for a workflow. Returns execution status, timestamps, and error messages if any.");
     ("inputSchema",
      VObj [("type", VStr "object");
            ("properties",
             VObj [workflow_id_property
                     "The ID of the workflow to get executions for";
                   ("limit",
                    VObj [("type", VStr "number");
                          ("description",
                           VStr "Maximum number of executions to return (default: 10, max: 100)");
                          ("default", VNum 10)])]);
            ("required", VArr [VStr "workflow_id"])])];
    [("name", VStr "trigger_workflow");
     ("description",
      VStr "Manually trigger a workflow execution. Optionally provide input data to pass to the workflow.");
     ("inputSchema",
      VObj [("type", VStr "object");
            ("properties",
             VObj [workflow_id_property "The ID of the workflow to trigger";
                   ("data",
                    VObj [("type", VStr "object");
                          ("description",
                           VStr "Optional data to pass to the workflow trigger (must be valid JSON)")])]);
            ("required", VArr [VStr "workflow_id"])])] ].

(** What the handler of [ListToolsRequestSchema] returns. *)
Definition ListToolsHandler : value := VObj [("tools", VArr (map VObj tools))].

End Setup.

(** ** Further vocabulary *)

(** The tool of the list that has the name [n]. *)
Definition listed_tool (n : string) : option object :=
  find (fun tool => match get tool "name" with
                    | VStr s => String.eqb s n
                    | _ => false
                    end) Setup.tools.

(** The names a tool's input schema lists as required. *)
Definition required_arguments (tool : object) : list value :=
  match opt_get (get tool "inputSchema") "required" with
  | VArr names => names
  | _ => []
  end.

(** The schema a tool's input schema gives the argument [k]. *)
Definition argument_schema (tool : object) (k : string) : value :=
  opt_get (opt_get (get tool "inputSchema") "properties") k.

Fixpoint ends_with_slash (s : string) : bool :=
  match s with
  | EmptyString => false
  | String c EmptyString => Ascii.eqb c "/"
  | String _ rest => ends_with_slash rest
  end.

(** A value in which [undefined] does not occur: what [JSON.parse] gives. *)
Fixpoint json_value (v : value) : bool :=
  match v with
  | VUndefined => false
  | VArr xs => forallb json_value xs
  | VObj o => forallb (fun p => json_value (snd p)) o
  | _ => true
  end.

Definition workflow_fields : list string :=
  ["id"; "name"; "active"; "nodes"; "connections"; "settings"; "staticData";
   "tags"; "createdAt"; "updatedAt"].

Definition code_of (e : Exn) : option ErrorCode :=
  match e with
  | McpError code _ => Some code
  | _ => None
  end.

(** A failure with a response whose status is 401, 403 or 404. *)
Definition refused (e : Exn) : bool :=
  match e with
  | AxiosError (Some r) _ =>
      Z.eqb (response_status r) 401 || Z.eqb (response_status r) 403
      || Z.eqb (response_status r) 404
  | _ => false
  end.

(** The names the dispatcher routes, and the ones it wants a workflow_id
    for. *)
Definition routed_tools : list string :=
  ["list_workflows"; "get_workflow"; "get_executions"; "trigger_workflow"].

Definition workflow_tools : list string :=
  ["get_workflow"; "get_executions"; "trigger_workflow"].

(** A run of a handler from [s]: some requests were issued, and the outcome
    is a text result whose payload says [success: true], or the error
    [handleAxiosError] made of a failure. *)
Definition handled {World : Type} (s : State World)
  (run : (Exn + CallToolResult) * State World) : Prop :=
  exists issued : list Request,
    issued <> []
    /\ calls (snd run) = (calls s ++ issued)%list
    /\ ((exists payload : object,
            fst run = inr (text_result (VObj payload))
            /\ get payload "success" = VBool true)
        \/ (exists (failure : Exn) (context : string),
               fst run = inl (handleAxiosError failure context))).

(** The argument named [k] of a call, as the value it is at run time. *)
Definition argument (a : Arguments) (k : string) : value :=
  if String.eqb k "workflow_id" then
    match workflow_id a with Some id => VStr id | None => VUndefined end
  else if String.eqb k "limit" then
    match limit a with Some l => VNum l | None => VUndefined end
  else if String.eqb k "data" then
    match data a with Some d => VObj d | None => VUndefined end
  else VUndefined.

(** Induction on a value, through its elements and its properties. *)
Section ValueInduction.

Variable P : value -> Prop.
Hypothesis P_undefined : P VUndefined.
Hypothesis P_null : P VNull.
Hypothesis P_bool : forall b, P (VBool b).
Hypothesis P_num : forall z, P (VNum z).
Hypothesis P_str : forall s, P (VStr s).
Hypothesis P_arr : forall xs, Forall P xs -> P (VArr xs).
Hypothesis P_obj : forall o, Forall (fun p => P (snd p)) o -> P (VObj o).

Fixpoint value_induction (v : value) : P v :=
  match v with
  | VUndefined => P_undefined
  | VNull => P_null
  | VBool b => P_bool b
  | VNum z => P_num z
  | VStr s => P_str s
  | VArr xs =>
      P_arr xs
        ((fix elements (xs : list value) : Forall P xs :=
            match xs with
            | [] => Forall_nil P
            | x :: rest => Forall_cons x (value_induction x) (elements rest)
            end) xs)
  | VObj o =>
      P_obj o
        ((fix members (o : object) : Forall (fun p => P (snd p)) o :=
            match o with
            | [] => Forall_nil _
            | p :: rest =>
                Forall_cons p (value_induction (snd p)) (members rest)
            end) o)
  end.

End ValueInduction.

(** Case analysis on the answer of the next upstream call of a run. *)
Ltac run_call upstream :=
  match goal with
  | |- context [upstream ?w ?r] =>
      let e := fresh "e" in
      let response := fresh "response" in
      let w' := fresh "w" in
      destruct (upstream w r) as [[e | response] w'] eqn:?; cbn
  end.

Ltac same_calls :=
  unfold after; cbn; repeat rewrite <- app_assoc; reflexivity.

(** * Properties *)

(** ** JavaScript values *)

Lemma document_of_object (o : object) :
  JSON_document (VObj o) = VObj (document_members o).
Proof. reflexivity. Qed.

Lemma document_members_cons (k : string) (v : value) (o : object) :
  document_members ((k, v) :: o) =
  if is_undefined v then document_members o
  else (k, JSON_document v) :: document_members o.
Proof. destruct v; reflexivity. Qed.

Lemma get_absent (o : object) (k : string) :
  ~ In k (keys o) -> get o k = VUndefined.
Proof.
  induction o as [| [k' v] o IH]; simpl; intros Hk; [reflexivity |].
  destruct (String.eqb_spec k' k) as [-> | _].
  - exfalso. apply Hk. now left.
  - apply IH. intros Hin. apply Hk. now right.
Qed.

Lemma document_keys_incl (o : object) :
  incl (keys (document_members o)) (keys o).
Proof.
  induction o as [| [k v] o IH]; [intros x Hx; exact Hx |].
  rewrite document_members_cons.
  destruct (is_undefined v); simpl.
  - intros x Hx. right. now apply IH.
  - intros x [-> | Hx]; [now left | right; now apply IH].
Qed.

(** Reading a property off the printed object gives the printed property,
    when no name occurs twice. *)
Lemma document_get (o : object) (k : string) :
  NoDup (keys o) ->
  get (document_members o) k = JSON_document (get o k).
Proof.
  induction o as [| [k' v] o IH]; intros Hnd; [reflexivity |].
  simpl in Hnd. inversion Hnd as [| ? ? Hnotin Hnd']; subst.
  rewrite document_members_cons. simpl get at 2.
  destruct (String.eqb_spec k' k) as [-> | Hne].
  - destruct (is_undefined v) eqn:Hv.
    + destruct v; try discriminate. simpl.
      apply get_absent. intros Hin. apply Hnotin.
      now apply document_keys_incl.
    + simpl. now rewrite String.eqb_refl.
  - destruct (is_undefined v); simpl.
    + now apply IH.
    + destruct (String.eqb_spec k' k); [contradiction | now apply IH].
Qed.

Lemma has_key_spec (o : object) (k : string) :
  has_key o k = true <-> In k (keys o).
Proof.
  unfold has_key. rewrite existsb_exists. split.
  - intros [x [Hin Heq]]. apply String.eqb_eq in Heq. now subst.
  - intros Hin. exists k. split; [exact Hin | apply String.eqb_refl].
Qed.

(** A property is printed exactly when its value is not [undefined]. *)
Lemma document_has_key (o : object) (k : string) :
  NoDup (keys o) ->
  has_key (document_members o) k = true <->
  In k (keys o) /\ get o k <> VUndefined.
Proof.
  induction o as [| [k' v] o IH]; intros Hnd.
  - simpl. unfold has_key. simpl. split; [discriminate | intros [[] _]].
  - simpl in Hnd. inversion Hnd as [| ? ? Hnotin Hnd']; subst.
    rewrite document_members_cons. simpl get. simpl keys.
    destruct (String.eqb_spec k' k) as [-> | Hne].
    + destruct (is_undefined v) eqn:Hv.
      * destruct v; try discriminate. split.
        -- intros H. apply (IH Hnd') in H. tauto.
        -- intros [_ H]. congruence.
      * split.
        -- intros _. split; [now left | destruct v; discriminate || congruence].
        -- intros _. apply has_key_spec. now left.
    + destruct (is_undefined v) eqn:Hv.
      * rewrite (IH Hnd'). simpl. intuition congruence.
      * rewrite has_key_spec. simpl. rewrite <- has_key_spec, (IH Hnd').
        intuition congruence.
Qed.

Lemma document_of_objects (l : list object) :
  JSON_document (VArr (map VObj l)) = VArr (map printed l).
Proof.
  simpl. f_equal. rewrite map_map. reflexivity.
Qed.

Lemma truthy_string (s : string) : truthy (VStr s) = true <-> s <> "".
Proof.
  simpl. destruct (String.eqb_spec s ""); simpl; split; congruence.
Qed.

(** ** Runs of the handlers

    What each handler returns or throws, and the state it leaves, by the
    answers of the upstream platform. *)
Section Runs.

Context {World : Type}.
Variable upstream : World -> forall r : Request, (Exn + Response r) * World.

Lemma listWorkflows_run (s : State World) :
  listWorkflows upstream s =
  match upstream (world s) GET_workflows with
  | (inr response, w) =>
      (inr (text_result (workflows_payload response)), after s w [GET_workflows])
  | (inl e, w) =>
      (inl (handleAxiosError e "Failed to list workflows"),
       after s w [GET_workflows])
  end.
Proof.
  unfold listWorkflows, workflows_payload. cbn. unfold M_catch, M_bind, send.
  run_call upstream; [reflexivity |]. now rewrite length_map.
Qed.

Lemma getWorkflow_run (workflowId : string) (s : State World) :
  getWorkflow upstream workflowId s =
  match upstream (world s) (GET_workflow workflowId) with
  | (inr workflow, w) =>
      (inr (text_result (workflow_payload workflow)),
       after s w [GET_workflow workflowId])
  | (inl e, w) =>
      (inl (handleAxiosError e ("Failed to get workflow " ++ workflowId)),
       after s w [GET_workflow workflowId])
  end.
Proof.
  unfold getWorkflow, workflow_payload. cbn. unfold M_catch, M_bind, send.
  run_call upstream; reflexivity.
Qed.

Lemma getExecutions_run (workflowId : string) (limit : option Z)
  (s : State World) :
  let request := GET_executions workflowId (validLimit limit) in
  getExecutions upstream workflowId limit s =
  match upstream (world s) request with
  | (inr response, w) =>
      (inr (text_result (executions_payload workflowId response)),
       after s w [request])
  | (inl e, w) =>
      (inl (handleAxiosError e
              ("Failed to get executions for workflow " ++ workflowId)),
       after s w [request])
  end.
Proof.
  unfold getExecutions, executions_payload. cbn. unfold M_catch, M_bind, send.
  run_call upstream; [reflexivity |]. now rewrite length_map.
Qed.

Lemma activate_body (data : option object) :
  or_else (of_option_object data) (VObj []) =
  match data with Some d => VObj d | None => VObj [] end.
Proof. destruct data; reflexivity. Qed.

Lemma triggerWorkflow_run (workflowId : string) (data : option object)
  (s : State World) :
  let context := "Failed to trigger workflow " ++ workflowId in
  let activate := activate_request workflowId data in
  let fetch := GET_workflow workflowId in
  triggerWorkflow upstream workflowId data s =
  match upstream (world s) activate with
  | (inl e, w1) => (inl (handleAxiosError e context), after s w1 [activate])
  | (inr _, w1) =>
      match upstream w1 fetch with
      | (inl e, w2) =>
          (inl (handleAxiosError e context), after s w2 [activate; fetch])
      | (inr workflow, w2) =>
          let test := test_request workflowId workflow data in
          match upstream w2 test with
          | (inl e, w3) =>
              (inl (handleAxiosError e context),
               after s w3 [activate; fetch; test])
          | (inr testResponse, w3) =>
              (inr (text_result
                      (trigger_payload workflowId workflow testResponse)),
               after s w3 [activate; fetch; test])
          end
      end
  end.
Proof.
  unfold triggerWorkflow, trigger_payload, activate_request, test_request,
    test_body.
  rewrite activate_body. destruct data as [d |]; cbn;
    unfold M_catch, M_bind, send; cbn.
  all: run_call upstream; [reflexivity |].
  all: run_call upstream; [same_calls |].
  all: match goal with
       | |- context [truthy ?v] => destruct (truthy v); cbn
       end.
  all: run_call upstream; same_calls.
Qed.

(** The handler of [CallToolRequestSchema] on each of the four tools. *)

Lemma boundary_run (body : M World CallToolResult) (s : State World) :
  boundary body s =
  match body s with
  | (inr result, s') => (inr result, s')
  | (inl e, s') =>
      if is_McpError e then (inl e, s') else (inr (handleError e), s')
  end.
Proof.
  unfold boundary. cbn. unfold M_catch.
  destruct (body s) as [[e | result] s']; [| reflexivity].
  destruct (is_McpError e); reflexivity.
Qed.

Lemma handleAxiosError_is_McpError (e : Exn) (context : string) :
  is_McpError (handleAxiosError e context) = true.
Proof.
  destruct e as [| [r |] | |]; cbn; try reflexivity.
  destruct (response_status r) as [| p |]; try reflexivity.
  do 9 (destruct p; try reflexivity).
Qed.

(** No handler throws anything but an [McpError]. *)
Lemma route_throws_McpError (params : CallToolParams) (s s' : State World)
  (e : Exn) :
  route upstream params s = (inl e, s') -> is_McpError e = true.
Proof.
  unfold route.
  repeat match goal with
         | |- context [if ?b then _ else _] => destruct b
         | |- context [match ?o with Some _ => _ | None => _ end] => destruct o
         end;
    try (cbn; unfold M_raise; intros [= <- _]; reflexivity).
  - rewrite listWorkflows_run.
    destruct (upstream _ _) as [[e' | r] w]; intros [= <- _].
    apply handleAxiosError_is_McpError.
  - rewrite getWorkflow_run.
    destruct (upstream _ _) as [[e' | r] w]; intros [= <- _].
    apply handleAxiosError_is_McpError.
  - rewrite getExecutions_run.
    destruct (upstream _ _) as [[e' | r] w]; intros [= <- _].
    apply handleAxiosError_is_McpError.
  - rewrite triggerWorkflow_run. cbv zeta.
    repeat match goal with
           | |- context [upstream ?w ?r] =>
               destruct (upstream w r) as [[? | ?] ?]
           end;
      intros [= <- _]; apply handleAxiosError_is_McpError.
Qed.

(** So the outer [catch] hands on what the [switch] returned or threw. *)
Lemma CallToolHandler_run (params : CallToolParams) (s : State World) :
  CallToolHandler upstream params s = route upstream params s.
Proof.
  unfold CallToolHandler. rewrite boundary_run.
  destruct (route upstream params s) as [[e | result] s'] eqn:Hroute;
    [| reflexivity].
  now rewrite (route_throws_McpError _ _ _ _ Hroute).
Qed.

Lemma route_list_workflows (args : option Arguments) (s : State World) :
  route upstream {| name := "list_workflows"; arguments := args |} s =
  listWorkflows upstream s.
Proof. reflexivity. Qed.

Lemma route_with_workflow_id (tool workflowId : string) (limit : option Z)
  (data : option object) (s : State World) :
  workflowId <> "" ->
  let params :=
    {| name := tool;
       arguments := Some {| workflow_id := Some workflowId;
                            limit := limit; data := data |} |} in
  (tool = "get_workflow" ->
   route upstream params s = getWorkflow upstream workflowId s) /\
  (tool = "get_executions" ->
   route upstream params s = getExecutions upstream workflowId limit s) /\
  (tool = "trigger_workflow" ->
   route upstream params s = triggerWorkflow upstream workflowId data s).
Proof.
  intros Hid params. apply truthy_string in Hid.
  repeat split; intros ->; unfold route, params; cbn -[truthy];
    now rewrite Hid.
Qed.

Lemma route_without_workflow_id (tool : string) (args : option Arguments)
  (s : State World) :
  In tool ["get_workflow"; "get_executions"; "trigger_workflow"] ->
  args_workflow_id args = None \/ args_workflow_id args = Some "" ->
  route upstream {| name := tool; arguments := args |} s =
  (inl workflow_id_required, s).
Proof.
  intros Htool Hid. unfold route. cbn [name arguments].
  destruct Htool as [<- | [<- | [<- | []]]]; cbn [String.eqb Ascii.eqb Bool.eqb];
    destruct Hid as [-> | ->]; reflexivity.
Qed.

Lemma route_unknown_tool (tool : string) (args : option Arguments)
  (s : State World) :
  ~ In tool ["list_workflows"; "get_workflow"; "get_executions";
             "trigger_workflow"] ->
  route upstream {| name := tool; arguments := args |} s =
  (inl (McpError MethodNotFound ("Unknown tool: " ++ tool)), s).
Proof.
  intros Htool. unfold route. cbn [name arguments].
  repeat match goal with
         | |- context [String.eqb tool ?t] =>
             destruct (String.eqb_spec tool t) as [-> | _];
             [exfalso; apply Htool; simpl; tauto |]
         end.
  reflexivity.
Qed.

End Runs.

(** ** The limit of get_executions *)

(** C1, as stated, fails: with [limit = 0] the request carries the limit 10,
    where the specification's [min(max(1, limit_or_default), 100)] gives 1. *)
Lemma get_executions_limit_zero :
  let params :=
    {| name := "get_executions";
       arguments := Some {| workflow_id := Some "wf1"; limit := Some 0;
                            data := None |} |} in
  let issued :=
    calls (snd (CallToolHandler Platform.answer params
                  (Platform.start Platform.initial))) in
  issued = [GET_executions "wf1" 10]
  /\ stated_limit (Some 0) = 1
  /\ issued <> [GET_executions "wf1" (stated_limit (Some 0))].
Proof.
  cbv zeta. repeat split; try reflexivity. vm_compute. discriminate.
Qed.

(** C1 (amended).  A call of get_executions with a non-empty workflow_id
    issues exactly one upstream request, the executions request for that
    workflow, whose limit is [min(max(1, l), 100)] where [l] is 10 when the
    limit is absent or 0 and the given limit otherwise; it lies in [1, 100].
    So limit 0 yields 10, limit 500 yields 100, an absent limit yields 10,
    limit 37 yields 37, and a negative limit yields 1. *)
Theorem get_executions_limit {World : Type}
  (upstream : World -> forall r : Request, (Exn + Response r) * World)
  (s : State World) (workflowId : string) (limit : option Z)
  (data : option object) :
  workflowId <> "" ->
  let params :=
    {| name := "get_executions";
       arguments := Some {| workflow_id := Some workflowId; limit := limit;
                            data := data |} |} in
  let l := match limit with
           | None | Some 0 => 10
           | Some given => given
           end in
  let sent := Z.min (Z.max 1 l) 100 in
  calls (snd (CallToolHandler upstream params s)) =
    (calls s ++ [GET_executions workflowId sent])%list
  /\ N8nMcpServer.params (GET_executions workflowId sent) =
       [("workflowId", VStr workflowId); ("limit", VNum sent)]
  /\ 1 <= sent <= 100
  /\ validLimit (Some 0) = 10
  /\ validLimit (Some 500) = 100
  /\ validLimit None = 10
  /\ validLimit (Some 37) = 37
  /\ forall given, given < 0 -> validLimit (Some given) = 1.
Proof.
  intros Hid params l sent.
  assert (Hsent : validLimit limit = sent).
  { unfold validLimit, sent, l. destruct limit as [[| p | p] |]; reflexivity. }
  repeat split; try reflexivity; try (unfold sent; lia).
  - rewrite CallToolHandler_run.
    destruct (route_with_workflow_id upstream "get_executions" workflowId
                limit data s Hid) as (_ & Hroute & _).
    fold params in Hroute. rewrite (Hroute eq_refl).
    pose proof (getExecutions_run upstream workflowId limit s) as Hrun.
    cbv zeta in Hrun. rewrite Hrun, Hsent. clear Hrun.
    destruct (upstream _ _) as [[e | response] w]; reflexivity.
  - intros given Hneg. unfold validLimit.
    destruct (Z.eqb_spec given 0); lia.
Qed.

Lemma get_executions_limit_witness :
  calls (snd (CallToolHandler Platform.answer
                {| name := "get_executions";
                   arguments := Some {| workflow_id := Some "wf1";
                                        limit := Some 500; data := None |} |}
                (Platform.start Platform.initial))) =
  [GET_executions "wf1" 100].
Proof.
  refine (proj1 (get_executions_limit Platform.answer
                   (Platform.start Platform.initial) "wf1" (Some 500) None _)).
  discriminate.
Defined.

(** ** The status of an execution *)

(** C2, as stated, fails: a record whose [waitTill] is present, as the empty
    string, and which finished and stopped, has the status success, not
    waiting. *)
Lemma blank_waitTill_is_not_waiting :
  has_key Platform.run_blank_wait "waitTill" = true
  /\ determineExecutionStatus Platform.run_blank_wait = success
  /\ determineExecutionStatus Platform.run_blank_wait <> waiting.
Proof. repeat split; try reflexivity. discriminate. Qed.

(** C2 (amended).  The status of an execution record is a function of
    [waitTill], [finished], [data.resultData.error] and [stoppedAt] alone,
    by first-match-wins precedence on their truthiness (a field that is
    absent, null, false, 0 or the empty string does not count as set):
    [waitTill] truthy yields waiting; else [finished] falsy yields running;
    else a truthy nested error yields error; else [stoppedAt] truthy yields
    success; else error. *)
Theorem execution_status_precedence (execution : object) :
  let waitTill := get execution "waitTill" in
  let finished := get execution "finished" in
  let resultError := result_error execution in
  let stoppedAt := get execution "stoppedAt" in
  determineExecutionStatus execution =
    status_by_precedence waitTill finished resultError stoppedAt
  /\ (truthy waitTill = true -> determineExecutionStatus execution = waiting)
  /\ (truthy waitTill = false -> truthy finished = false ->
      determineExecutionStatus execution = running)
  /\ (truthy waitTill = false -> truthy finished = true ->
      truthy resultError = true ->
      determineExecutionStatus execution = error)
  /\ (truthy waitTill = false -> truthy finished = true ->
      truthy resultError = false -> truthy stoppedAt = true ->
      determineExecutionStatus execution = success)
  /\ (truthy waitTill = false -> truthy finished = true ->
      truthy resultError = false -> truthy stoppedAt = false ->
      determineExecutionStatus execution = error)
  /\ determineExecutionStatus [("waitTill", VStr "t")] = waiting
  /\ determineExecutionStatus [("finished", VBool false)] = running
  /\ determineExecutionStatus
       [("finished", VBool true);
        ("data", VObj [("resultData",
                        VObj [("error", VObj [("message", VStr "m")])])])]
     = error
  /\ determineExecutionStatus [("finished", VBool true); ("stoppedAt", VStr "t")]
     = success
  /\ determineExecutionStatus [("finished", VBool true)] = error.
Proof.
  cbv zeta. unfold determineExecutionStatus, status_by_precedence.
  repeat split; try reflexivity; intros;
    repeat match goal with
           | H : truthy _ = _ |- _ => rewrite H; clear H
           end; reflexivity.
Qed.

Lemma execution_status_precedence_witness :
  determineExecutionStatus Platform.run_done = success.
Proof.
  refine (proj1 (proj2 (proj2 (proj2 (proj2
            (execution_status_precedence Platform.run_done))))) _ _ _ _);
    reflexivity.
Defined.

(** ** The protocol of trigger_workflow *)

(** C3.  When the three upstream calls of a trigger_workflow call with a
    non-empty workflow_id succeed, the handler issues exactly these three
    requests, in the order activate, get workflow, test; the test request is
    the same whether the fetched workflow is active or not; the payload's
    [executionId] is the one of the test response and its [workflowActive]
    is the [active] flag of the fetched workflow. *)
Theorem trigger_workflow_three_calls {World : Type}
  (upstream : World -> forall r : Request, (Exn + Response r) * World)
  (s : State World) (workflowId : string) (limit : option Z)
  (data : option object)
  (activated : value) (workflow testResponse : object) (w1 w2 w3 : World) :
  workflowId <> "" ->
  let activate := activate_request workflowId data in
  let fetch := GET_workflow workflowId in
  let test := test_request workflowId workflow data in
  upstream (world s) activate = (inr activated, w1) ->
  upstream w1 fetch = (inr workflow, w2) ->
  upstream w2 test = (inr testResponse, w3) ->
  CallToolHandler upstream
    {| name := "trigger_workflow";
       arguments := Some {| workflow_id := Some workflowId; limit := limit;
                            data := data |} |} s =
  (inr (text_result
          (VObj [("success", VBool true);
                 ("message", VStr "Workflow triggered successfully");
                 ("workflowId", VStr workflowId);
                 ("executionId", get testResponse "executionId");
                 ("workflowActive", get workflow "active")])),
   {| world := w3; calls := (calls s ++ [activate; fetch; test])%list |}).
Proof.
  intros Hid activate fetch test Hactivate Hfetch Htest.
  rewrite CallToolHandler_run.
  destruct (route_with_workflow_id upstream "trigger_workflow" workflowId
              limit data s Hid) as (_ & _ & Hroute).
  rewrite (Hroute eq_refl).
  pose proof (triggerWorkflow_run upstream workflowId data s) as Hrun.
  cbv zeta in Hrun. fold activate fetch in Hrun.
  rewrite Hrun, Hactivate, Hfetch. fold test. rewrite Htest. reflexivity.
Qed.

Lemma trigger_workflow_three_calls_witness :
  calls (snd (CallToolHandler Platform.answer
                {| name := "trigger_workflow";
                   arguments := Some {| workflow_id := Some "wf2";
                                        limit := None; data := None |} |}
                (Platform.start Platform.initial))) =
  [POST_activate "wf2" (VObj []);
   GET_workflow "wf2";
   POST_test "wf2"
     (VObj [("workflowData", VObj Platform.nightly_report);
            ("runData", VUndefined)])].
Proof.
  refine (f_equal (fun run => calls (snd run))
            (trigger_workflow_three_calls Platform.answer
               (Platform.start Platform.initial) "wf2" None None
               (VObj Platform.nightly_report) Platform.nightly_report
               [("executionId", VStr "200")]
               Platform.initial Platform.initial
               {| Platform.workflows := Platform.workflows Platform.initial;
                  Platform.executions := Platform.executions Platform.initial;
                  Platform.next_execution := 201;
                  Platform.fault := None |}
               _ _ _ _));
    [discriminate | reflexivity | reflexivity | reflexivity].
Defined.

(** ** A missing workflow_id *)

(** C4.  A call of get_workflow, get_executions or trigger_workflow whose
    arguments carry no workflow_id (no arguments, no such argument, or the
    empty string) throws the [McpError] with the code [InvalidParams], and
    leaves the run where it was: no request has been issued and the upstream
    state is the same. *)
Theorem missing_workflow_id_fails_fast {World : Type}
  (upstream : World -> forall r : Request, (Exn + Response r) * World)
  (s : State World) (tool : string) (args : option Arguments) :
  In tool ["get_workflow"; "get_executions"; "trigger_workflow"] ->
  args_workflow_id args = None \/ args_workflow_id args = Some "" ->
  CallToolHandler upstream {| name := tool; arguments := args |} s =
  (inl (McpError InvalidParams "workflow_id is required"), s).
Proof.
  intros Htool Hid. rewrite CallToolHandler_run.
  now apply route_without_workflow_id.
Qed.

Lemma missing_workflow_id_fails_fast_witness :
  CallToolHandler Platform.answer
    {| name := "trigger_workflow";
       arguments := Some {| workflow_id := Some ""; limit := None;
                            data := Some [("invoice", VNum 7)] |} |}
    (Platform.start Platform.initial) =
  (inl (McpError InvalidParams "workflow_id is required"),
   Platform.start Platform.initial).
Proof.
  apply (missing_workflow_id_fails_fast Platform.answer
           (Platform.start Platform.initial) "trigger_workflow").
  - simpl. tauto.
  - right. reflexivity.
Defined.

(** ** Failures of upstream calls *)

(** C5, as stated, fails: a 401 response whose body is the JSON value
    [false] gives the error "Authentication failed: <transport text>. Please
    check your N8N_API_KEY.", in which the upstream body does not occur. *)
Lemma falsy_body_is_not_in_the_message :
  let failure :=
    AxiosError
      (Some {| response_status := 401; response_data := VBool false |})
      "Request failed with status code 401" in
  let params :=
    {| name := "get_workflow";
       arguments := Some {| workflow_id := Some "wf1"; limit := None;
                            data := None |} |} in
  let message :=
    "Authentication failed: Request failed with status code 401. Please check your N8N_API_KEY." in
  fst (CallToolHandler Platform.answer params
         (Platform.start (Platform.failing failure))) =
    inl (McpError InvalidRequest message)
  /\ JSON_stringify "" (VBool false) = "false"
  /\ String.index 0 "false" message = None.
Proof. cbv zeta. repeat split. Qed.

(** C5 (amended).  Each handler hands the failure of any of its upstream
    calls to [handleAxiosError] with its own context and throws the result.
    For a failure with a response, status 401 or 403 gives the
    [InvalidRequest] error "Authentication failed: <detail>. Please check
    your N8N_API_KEY." (the specification's AuthenticationError), status 404
    gives the [InvalidRequest] error "Resource not found: <detail>"
    (NotFoundError), and any other status, like a failure with no response,
    gives the [InternalError] error "<context>: <detail>" (UpstreamError).
    In all three the detail is the response body as JSON when the response
    carries a truthy body, and the text of the transport error otherwise. *)
Theorem upstream_failure_translation {World : Type}
  (upstream : World -> forall r : Request, (Exn + Response r) * World)
  (s : State World) (workflowId : string) (limit : option Z)
  (data : option object) (failure : Exn) (w : World) :
  (upstream (world s) GET_workflows = (inl failure, w) ->
   listWorkflows upstream s =
   (inl (handleAxiosError failure "Failed to list workflows"),
    after s w [GET_workflows]))
  /\ (upstream (world s) (GET_workflow workflowId) = (inl failure, w) ->
      getWorkflow upstream workflowId s =
      (inl (handleAxiosError failure ("Failed to get workflow " ++ workflowId)),
       after s w [GET_workflow workflowId]))
  /\ (upstream (world s) (GET_executions workflowId (validLimit limit)) =
        (inl failure, w) ->
      getExecutions upstream workflowId limit s =
      (inl (handleAxiosError failure
              ("Failed to get executions for workflow " ++ workflowId)),
       after s w [GET_executions workflowId (validLimit limit)]))
  /\ (let context := "Failed to trigger workflow " ++ workflowId in
      let activate := activate_request workflowId data in
      let fetch := GET_workflow workflowId in
      (upstream (world s) activate = (inl failure, w) ->
       triggerWorkflow upstream workflowId data s =
       (inl (handleAxiosError failure context), after s w [activate]))
      /\ (forall activated w1,
             upstream (world s) activate = (inr activated, w1) ->
             upstream w1 fetch = (inl failure, w) ->
             triggerWorkflow upstream workflowId data s =
             (inl (handleAxiosError failure context),
              after s w [activate; fetch]))
      /\ (forall activated w1 workflow w2,
             upstream (world s) activate = (inr activated, w1) ->
             upstream w1 fetch = (inr workflow, w2) ->
             upstream w2 (test_request workflowId workflow data) =
               (inl failure, w) ->
             triggerWorkflow upstream workflowId data s =
             (inl (handleAxiosError failure context),
              after s w [activate; fetch;
                         test_request workflowId workflow data])))
  /\ (forall (context : string) (r : AxiosResponse) (message : string),
         let detail := upstream_message (Some r) message in
         (response_status r = 401 \/ response_status r = 403 ->
          handleAxiosError (AxiosError (Some r) message) context =
          McpError InvalidRequest
            ("Authentication failed: " ++ detail
               ++ ". Please check your N8N_API_KEY."))
         /\ (response_status r = 404 ->
             handleAxiosError (AxiosError (Some r) message) context =
             McpError InvalidRequest ("Resource not found: " ++ detail))
         /\ (response_status r <> 401 -> response_status r <> 403 ->
             response_status r <> 404 ->
             handleAxiosError (AxiosError (Some r) message) context =
             McpError InternalError (context ++ ": " ++ detail))
         /\ handleAxiosError (AxiosError None message) context =
            McpError InternalError (context ++ ": " ++ message)
         /\ (truthy (response_data r) = true ->
             detail = JSON_stringify "" (response_data r))
         /\ (truthy (response_data r) = false -> detail = message)).
Proof.
  repeat split.
  - intros H. now rewrite listWorkflows_run, H.
  - intros H. now rewrite getWorkflow_run, H.
  - intros H. pose proof (getExecutions_run upstream workflowId limit s) as Hrun.
    cbv zeta in Hrun. now rewrite Hrun, H.
  - intros H. pose proof (triggerWorkflow_run upstream workflowId data s) as Hrun.
    cbv zeta in Hrun. now rewrite Hrun, H.
  - intros activated w1 H1 H2.
    pose proof (triggerWorkflow_run upstream workflowId data s) as Hrun.
    cbv zeta in Hrun. now rewrite Hrun, H1, H2.
  - intros activated w1 workflow w2 H1 H2 H3.
    pose proof (triggerWorkflow_run upstream workflowId data s) as Hrun.
    cbv zeta in Hrun. now rewrite Hrun, H1, H2, H3.
  - intros [H | H]; cbn [handleAxiosError option_map]; now rewrite H.
  - intros H. cbn [handleAxiosError option_map]. now rewrite H.
  - intros H1 H2 H3. cbn [handleAxiosError option_map].
    destruct (response_status r) as [| p | p]; try reflexivity.
    do 9 (destruct p; try reflexivity); congruence.
  - intros H. unfold upstream_message. now rewrite H.
  - intros H. unfold upstream_message. now rewrite H.
Qed.

Lemma upstream_failure_translation_witness :
  listWorkflows Platform.answer
    (Platform.start (Platform.failing Platform.unauthorized)) =
  (inl (handleAxiosError Platform.unauthorized "Failed to list workflows"),
   after (Platform.start (Platform.failing Platform.unauthorized))
     (Platform.failing Platform.unauthorized) [GET_workflows]).
Proof.
  refine (proj1 (upstream_failure_translation Platform.answer _ "wf1" None None
                   _ _) _).
  reflexivity.
Defined.

(** ** The outer boundary of the dispatcher *)

(** C6, as stated, fails: an error that is no [McpError], raised inside the
    list_workflows handler by its upstream call, does not come back as the
    payload [{success: false, error}]; the handler's own [catch] turns it
    into the [InternalError] error with the handler's context, and the tool
    call throws that. *)
Lemma handler_failure_is_not_a_payload :
  let s := Platform.start (Platform.failing (Error "Invalid URL")) in
  let run :=
    CallToolHandler Platform.answer
      {| name := "list_workflows"; arguments := None |} s in
  is_McpError (Error "Invalid URL") = false
  /\ fst run =
     inl (McpError InternalError "Failed to list workflows: Invalid URL")
  /\ fst run <> inr (handleError (Error "Invalid URL")).
Proof. cbv zeta. repeat split; try reflexivity. vm_compute. discriminate. Qed.

(** C6 (amended).  At the outer boundary of the dispatcher, an error that is
    no [McpError] is caught and returned as the payload
    [{success: false, error: <message>}] with [isError] set, and an
    [McpError] is thrown on unchanged.  No such untyped error reaches the
    boundary from the four handlers: a failure raised inside a handler, of
    whatever kind, is turned by the handler's own [catch] into an
    [McpError], so whatever a tool call throws is an [McpError], the
    [InvalidParams] error of a missing workflow_id and the [MethodNotFound]
    error of an unknown tool among them. *)
Theorem dispatch_boundary {World : Type}
  (upstream : World -> forall r : Request, (Exn + Response r) * World)
  (body : M World CallToolResult) (params : CallToolParams)
  (tool : string) (args : option Arguments) (s s' : State World) (e : Exn) :
  (body s = (inl e, s') -> is_McpError e = false ->
   boundary body s = (inr (handleError e), s'))
  /\ handleError e =
     {| content :=
          [ {| type := "text";
               text := JSON_stringify "  "
                         (VObj [("success", VBool false);
                                ("error", VStr (error_text e))]) |} ];
        isError := Some true |}
  /\ (body s = (inl e, s') -> is_McpError e = true ->
      boundary body s = (inl e, s'))
  /\ (route upstream params s = (inl e, s') ->
      is_McpError e = true
      /\ CallToolHandler upstream params s = (inl e, s'))
  /\ (CallToolHandler upstream params s = (inl e, s') -> is_McpError e = true)
  /\ (In tool ["get_workflow"; "get_executions"; "trigger_workflow"] ->
      args_workflow_id args = None \/ args_workflow_id args = Some "" ->
      CallToolHandler upstream {| name := tool; arguments := args |} s =
      (inl (McpError InvalidParams "workflow_id is required"), s))
  /\ (~ In tool ["list_workflows"; "get_workflow"; "get_executions";
                 "trigger_workflow"] ->
      CallToolHandler upstream {| name := tool; arguments := args |} s =
      (inl (McpError MethodNotFound ("Unknown tool: " ++ tool)), s)).
Proof.
  repeat split.
  - intros Hbody He. now rewrite boundary_run, Hbody, He.
  - intros Hbody He. now rewrite boundary_run, Hbody, He.
  - now apply route_throws_McpError with (1 := H).
  - now rewrite CallToolHandler_run.
  - rewrite CallToolHandler_run. apply route_throws_McpError.
  - intros Htool Hid. rewrite CallToolHandler_run.
    now apply route_without_workflow_id.
  - intros Htool. rewrite CallToolHandler_run.
    now apply route_unknown_tool.
Qed.

Lemma dispatch_boundary_witness :
  boundary (fun s => (inl (Thrown (VStr "stack overflow")), s))
    (Platform.start Platform.initial) =
  (inr (handleError (Thrown (VStr "stack overflow"))),
   Platform.start Platform.initial).
Proof.
  refine (proj1 (dispatch_boundary Platform.answer
                   (fun s => (inl (Thrown (VStr "stack overflow")), s))
                   {| name := "list_workflows"; arguments := None |}
                   "list_workflows" None
                   (Platform.start Platform.initial)
                   (Platform.start Platform.initial)
                   (Thrown (VStr "stack overflow"))) _ _);
    reflexivity.
Defined.

(** ** The result of list_workflows *)

Lemma workflow_summary_keys (workflow : object) :
  keys (workflow_summary workflow) = summary_fields.
Proof. reflexivity. Qed.

Lemma NoDup_summary_fields : NoDup summary_fields.
Proof.
  unfold summary_fields.
  repeat (constructor; [simpl; intuition discriminate |]). constructor.
Qed.

Lemma workflow_summary_get (workflow : object) (k : string) :
  get (workflow_summary workflow) k =
  if existsb (String.eqb k) summary_fields then get workflow k else VUndefined.
Proof.
  unfold workflow_summary, summary_fields. cbn [get existsb].
  repeat match goal with
         | |- context [String.eqb ?a k] =>
             rewrite (String.eqb_sym a k);
             destruct (String.eqb_spec k a) as [-> | _]; [reflexivity |]
         end.
  reflexivity.
Qed.

(** C7.  When the upstream list-workflows call answers with a list of
    records, list_workflows returns the text of [{success: true, count,
    workflows}], where [workflows] has one record per upstream record, in
    the upstream order, [count] is its length, and each record is the
    upstream record projected to the summary fields id, name, active,
    createdAt, updatedAt, tags: it has each of these the upstream record
    has, with the same value, and nothing else. *)
Theorem list_workflows_summaries {World : Type}
  (upstream : World -> forall r : Request, (Exn + Response r) * World)
  (s : State World) (args : option Arguments) (response : list object)
  (w : World) :
  upstream (world s) GET_workflows = (inr response, w) ->
  let workflows :=
    map (fun workflow => printed (workflow_summary workflow)) response in
  CallToolHandler upstream {| name := "list_workflows"; arguments := args |} s =
    (inr {| content :=
              [ {| type := "text";
                   text := JSON_print "  " ""
                             (VObj [("success", VBool true);
                                    ("count",
                                     VNum (Z.of_nat (List.length workflows)));
                                    ("workflows", VArr workflows)]) |} ];
            isError := None |},
     after s w [GET_workflows])
  /\ List.length workflows = List.length response
  /\ (forall i : nat,
         nth_error workflows i =
         option_map (fun workflow => printed (workflow_summary workflow))
           (nth_error response i))
  /\ (forall workflow : object,
         let shown := document_members (workflow_summary workflow) in
         printed (workflow_summary workflow) = VObj shown
         /\ keys (workflow_summary workflow) = summary_fields
         /\ incl (keys shown) summary_fields
         /\ (forall k, In k summary_fields ->
                       get shown k = JSON_document (get workflow k))
         /\ (forall k, In k summary_fields ->
                       (has_key shown k = true <-> get workflow k <> VUndefined))
         /\ (forall k, ~ In k summary_fields ->
                       get shown k = VUndefined /\ has_key shown k = false)).
Proof.
  intros Hanswer workflows.
  assert (Hnodup : forall workflow, NoDup (keys (workflow_summary workflow))).
  { intros workflow. rewrite workflow_summary_keys. apply NoDup_summary_fields. }
  assert (Hmem : forall k, In k summary_fields ->
                           existsb (String.eqb k) summary_fields = true).
  { intros k Hk. apply existsb_exists. exists k. split; [exact Hk |].
    apply String.eqb_refl. }
  assert (Hnotmem : forall k, ~ In k summary_fields ->
                              existsb (String.eqb k) summary_fields = false).
  { intros k Hk. destruct (existsb _ _) eqn:Hex; [| reflexivity].
    apply existsb_exists in Hex. destruct Hex as [x [Hin Heq]].
    apply String.eqb_eq in Heq. now subst. }
  repeat split.
  - rewrite CallToolHandler_run, route_list_workflows, listWorkflows_run, Hanswer.
    unfold text_result, JSON_stringify, workflows_payload.
    rewrite document_of_object. repeat rewrite document_members_cons.
    cbn [is_undefined]. rewrite document_of_objects.
    unfold workflows. rewrite !map_map, !length_map. reflexivity.
  - unfold workflows. now rewrite length_map.
  - intros i. unfold workflows. now rewrite nth_error_map.
  - rewrite <- (workflow_summary_keys workflow). apply document_keys_incl.
  - intros k Hk. rewrite (document_get _ _ (Hnodup workflow)).
    now rewrite workflow_summary_get, (Hmem k Hk).
  - intros Hshown. apply (document_has_key _ _ (Hnodup workflow)) in Hshown.
    destruct Hshown as [_ Hget].
    now rewrite workflow_summary_get, (Hmem k H) in Hget.
  - intros Hget. apply (document_has_key _ _ (Hnodup workflow)).
    rewrite workflow_summary_keys, workflow_summary_get, (Hmem k H). now split.
  - rewrite (document_get _ _ (Hnodup workflow)).
    now rewrite workflow_summary_get, (Hnotmem k H).
  - destruct (has_key _ k) eqn:Hshown; [| reflexivity].
    apply (document_has_key _ _ (Hnodup workflow)) in Hshown.
    rewrite workflow_summary_keys in Hshown. tauto.
Qed.

Lemma list_workflows_summaries_witness :
  fst (CallToolHandler Platform.answer
         {| name := "list_workflows"; arguments := None |}
         (Platform.start Platform.initial)) =
  inr {| content :=
           [ {| type := "text";
                text := JSON_print "  " ""
                          (VObj [("success", VBool true);
                                 ("count", VNum 2);
                                 ("workflows",
                                  VArr [printed (workflow_summary
                                                   Platform.invoice_sync);
                                        printed (workflow_summary
                                                   Platform.nightly_report)])])
             |} ];
         isError := None |}.
Proof.
  refine (f_equal fst
            (proj1 (list_workflows_summaries Platform.answer
                      (Platform.start Platform.initial) None
                      [Platform.invoice_sync; Platform.nightly_report]
                      Platform.initial _))).
  reflexivity.
Defined.

(** ** Repeated reads *)

(** C8.  Two calls of list_workflows, against any two upstream platforms in
    any two states and with any histories of earlier requests, give the same
    result (the same payload, or the same error) whenever the upstream
    list-workflows call answers the same in both; and so do two calls of
    get_workflow with the same workflow_id whenever the upstream get-workflow
    call for that id answers the same in both. *)
Theorem reads_depend_on_the_answer_only {World1 World2 : Type}
  (upstream1 : World1 -> forall r : Request, (Exn + Response r) * World1)
  (upstream2 : World2 -> forall r : Request, (Exn + Response r) * World2)
  (s1 : State World1) (s2 : State World2)
  (args1 args2 : option Arguments) (workflowId : string)
  (limit1 limit2 : option Z) (data1 data2 : option object) :
  (fst (upstream1 (world s1) GET_workflows) =
   fst (upstream2 (world s2) GET_workflows) ->
   fst (CallToolHandler upstream1
          {| name := "list_workflows"; arguments := args1 |} s1) =
   fst (CallToolHandler upstream2
          {| name := "list_workflows"; arguments := args2 |} s2))
  /\ (fst (upstream1 (world s1) (GET_workflow workflowId)) =
      fst (upstream2 (world s2) (GET_workflow workflowId)) ->
      fst (CallToolHandler upstream1
             {| name := "get_workflow";
                arguments := Some {| workflow_id := Some workflowId;
                                     limit := limit1; data := data1 |} |} s1) =
      fst (CallToolHandler upstream2
             {| name := "get_workflow";
                arguments := Some {| workflow_id := Some workflowId;
                                     limit := limit2; data := data2 |} |} s2)).
Proof.
  split.
  - intros Hsame.
    rewrite !CallToolHandler_run, !route_list_workflows, !listWorkflows_run.
    destruct (upstream1 (world s1) GET_workflows) as [[e1 | r1] w1],
             (upstream2 (world s2) GET_workflows) as [[e2 | r2] w2];
      cbn in Hsame |- *; congruence.
  - intros Hsame. rewrite !CallToolHandler_run.
    destruct (String.eqb_spec workflowId "") as [-> | Hid].
    + reflexivity.
    + destruct (route_with_workflow_id upstream1 "get_workflow" workflowId
                  limit1 data1 s1 Hid) as (Hroute1 & _).
      destruct (route_with_workflow_id upstream2 "get_workflow" workflowId
                  limit2 data2 s2 Hid) as (Hroute2 & _).
      rewrite (Hroute1 eq_refl), (Hroute2 eq_refl), !getWorkflow_run.
      destruct (upstream1 (world s1) (GET_workflow workflowId))
        as [[e1 | r1] w1],
               (upstream2 (world s2) (GET_workflow workflowId))
        as [[e2 | r2] w2];
        cbn in Hsame |- *; congruence.
Qed.

Lemma reads_depend_on_the_answer_only_witness :
  fst (CallToolHandler Platform.answer
         {| name := "list_workflows"; arguments := None |}
         (Platform.start Platform.initial)) =
  fst (CallToolHandler Platform.answer
         {| name := "list_workflows"; arguments := None |}
         {| world := Platform.later;
            calls := [GET_workflows; GET_executions "wf1" 10] |}).
Proof.
  refine (proj1 (reads_depend_on_the_answer_only Platform.answer Platform.answer
                   (Platform.start Platform.initial)
                   {| world := Platform.later;
                      calls := [GET_workflows; GET_executions "wf1" 10] |}
                   None None "wf1" None None None None) _).
  reflexivity.
Defined.

(** ** The records of get_executions *)

Lemma execution_summary_keys (execution : object) :
  keys (execution_summary execution) = execution_fields.
Proof. reflexivity. Qed.

Lemma NoDup_execution_fields : NoDup execution_fields.
Proof.
  unfold execution_fields.
  repeat (constructor; [simpl; intuition discriminate |]). constructor.
Qed.

Lemma execution_summary_copied (execution : object) (k : string) :
  In k copied_fields -> get (execution_summary execution) k = get execution k.
Proof.
  unfold copied_fields. simpl.
  intros [<- | [<- | [<- | [<- | [<- | [<- | []]]]]]]; reflexivity.
Qed.

(** C9, as stated, fails: a record whose [data.resultData.error] exists with
    an empty message, and whose [finished] is false, gets the error null and
    the status running, not error. *)
Lemma crashed_run_is_running :
  let record := execution_summary Platform.run_crashed in
  result_error Platform.run_crashed = VObj [("message", VStr "")]
  /\ get record "error" = VNull
  /\ get record "status" = VStr "running"
  /\ get record "status" <> VStr "error".
Proof. cbv zeta. repeat split; try reflexivity. vm_compute. discriminate. Qed.

(** C9 (amended).  The [error] field of an execution record is the nested
    [data.resultData.error.message] when that message is truthy, and null
    otherwise; for a message that is a string, it equals the message exactly
    when the message is not empty, and it is null when the message is empty
    or absent.  A record whose nested error object exists with an empty
    message gets the error null; its status is error when its [waitTill] is
    not truthy and its [finished] is truthy, waiting when [waitTill] is
    truthy, and running otherwise. *)
Theorem execution_error_field (execution : object) :
  let message := opt_get (result_error execution) "message" in
  let record := execution_summary execution in
  get record "error" = (if truthy message then message else VNull)
  /\ (forall s : string,
         message = VStr s -> (get record "error" = VStr s <-> s <> ""))
  /\ (message = VStr "" \/ message = VUndefined -> get record "error" = VNull)
  /\ (forall o : object,
         result_error execution = VObj o ->
         get o "message" = VStr "" ->
         get record "error" = VNull
         /\ get record "status" =
            VStr (status_text
                    (if truthy (get execution "waitTill") then waiting
                     else if truthy (get execution "finished") then error
                     else running)))
  /\ get (document_members record) "error" = JSON_document (get record "error").
Proof.
  cbv zeta.
  assert (Hprinted :
            get (document_members (execution_summary execution)) "error" =
            JSON_document (get (execution_summary execution) "error")).
  { apply document_get. rewrite execution_summary_keys.
    apply NoDup_execution_fields. }
  assert (Herror : get (execution_summary execution) "error" =
                   or_else (opt_get (result_error execution) "message") VNull)
    by reflexivity.
  assert (Hstatus : get (execution_summary execution) "status" =
                    VStr (status_text (determineExecutionStatus execution)))
    by reflexivity.
  rewrite Herror. unfold or_else. repeat split.
  - intros Heq. rewrite H in Heq. apply truthy_string.
    destruct (truthy (VStr s)); [reflexivity | discriminate].
  - intros Hs. rewrite H. apply truthy_string in Hs. now rewrite Hs.
  - intros [-> | ->]; reflexivity.
  - rewrite H. cbn [opt_get]. now rewrite H0.
  - rewrite Hstatus. unfold determineExecutionStatus. rewrite H.
    destruct (truthy (get execution "waitTill")); [reflexivity |].
    destruct (truthy (get execution "finished")); reflexivity.
  - exact Hprinted.
Qed.

Lemma execution_error_field_witness :
  get (execution_summary Platform.run_failed) "error" = VNull
  /\ get (execution_summary Platform.run_failed) "status" = VStr "error".
Proof.
  refine (proj1 (proj2 (proj2 (proj2
            (execution_error_field Platform.run_failed))))
            [("message", VStr "")] _ _);
    reflexivity.
Defined.

(** C10, as stated, fails: the record printed for a run that has no
    [stoppedAt] has no [stoppedAt] field. *)
Lemma going_run_has_no_stoppedAt :
  let shown := document_members (execution_summary Platform.run_going) in
  has_key shown "stoppedAt" = false
  /\ keys shown =
     ["id"; "workflowId"; "finished"; "mode"; "startedAt"; "status"; "error"]
  /\ keys shown <> execution_fields.
Proof. cbv zeta. repeat split; try reflexivity. vm_compute. discriminate. Qed.

(** C10 (amended).  get_executions prints one record per upstream execution.
    Each is built with exactly the fields id, workflowId, finished, mode,
    startedAt, stoppedAt, status, error, and is printed without those whose
    value is undefined: the printed record has no field besides these
    eight, always has status and error, and has each of id, workflowId,
    finished, mode, startedAt, stoppedAt exactly when the upstream record
    has it.  The upstream fields waitTill, retryOf and retrySuccessId are
    never printed. *)
Theorem execution_record_fields {World : Type}
  (upstream : World -> forall r : Request, (Exn + Response r) * World)
  (s : State World) (workflowId : string) (limit : option Z)
  (data : option object) (response : list object) (w : World)
  (execution : object) :
  let request := GET_executions workflowId (validLimit limit) in
  let record := execution_summary execution in
  let shown := document_members record in
  (workflowId <> "" ->
   upstream (world s) request = (inr response, w) ->
   CallToolHandler upstream
     {| name := "get_executions";
        arguments := Some {| workflow_id := Some workflowId; limit := limit;
                             data := data |} |} s =
   (inr {| content :=
             [ {| type := "text";
                  text := JSON_print "  " ""
                            (VObj [("success", VBool true);
                                   ("workflowId", VStr workflowId);
                                   ("count",
                                    VNum (Z.of_nat (List.length response)));
                                   ("executions",
                                    VArr (map (fun e =>
                                                 printed (execution_summary e))
                                            response))]) |} ];
           isError := None |},
    after s w [request]))
  /\ printed record = VObj shown
  /\ keys record = execution_fields
  /\ incl (keys shown) execution_fields
  /\ has_key shown "status" = true
  /\ has_key shown "error" = true
  /\ (forall k, In k copied_fields ->
                (has_key shown k = true <-> get execution k <> VUndefined))
  /\ has_key shown "waitTill" = false
  /\ has_key shown "retryOf" = false
  /\ has_key shown "retrySuccessId" = false.
Proof.
  cbv zeta.
  assert (Hnodup : NoDup (keys (execution_summary execution))).
  { rewrite execution_summary_keys. apply NoDup_execution_fields. }
  assert (Hnot : forall k, ~ In k execution_fields ->
                   has_key (document_members (execution_summary execution)) k
                   = false).
  { intros k Hk. destruct (has_key _ k) eqn:Hshown; [| reflexivity].
    apply (document_has_key _ _ Hnodup) in Hshown.
    rewrite execution_summary_keys in Hshown. tauto. }
  repeat split.
  - intros Hid Hanswer. rewrite CallToolHandler_run.
    destruct (route_with_workflow_id upstream "get_executions" workflowId
                limit data s Hid) as (_ & Hroute & _).
    rewrite (Hroute eq_refl).
    pose proof (getExecutions_run upstream workflowId limit s) as Hrun.
    cbv zeta in Hrun. rewrite Hrun, Hanswer.
    unfold text_result, JSON_stringify, executions_payload.
    rewrite document_of_object. repeat rewrite document_members_cons.
    cbn [is_undefined]. rewrite document_of_objects, map_map. reflexivity.
  - rewrite <- (execution_summary_keys execution). apply document_keys_incl.
  - apply (document_has_key _ _ Hnodup). split.
    + rewrite execution_summary_keys. simpl. tauto.
    + discriminate.
  - apply (document_has_key _ _ Hnodup). split.
    + rewrite execution_summary_keys. simpl. tauto.
    + change (get (execution_summary execution) "error")
        with (or_else (opt_get (result_error execution) "message") VNull).
      unfold or_else.
      destruct (truthy (opt_get (result_error execution) "message")) eqn:Hm;
        [| discriminate].
      intros Heq. rewrite Heq in Hm. discriminate.
  - intros Hshown. apply (document_has_key _ _ Hnodup) in Hshown.
    destruct Hshown as [_ Hget]. now rewrite execution_summary_copied in Hget.
  - intros Hget. apply (document_has_key _ _ Hnodup). split.
    + rewrite execution_summary_keys.
      revert H. unfold copied_fields, execution_fields. simpl. tauto.
    + now rewrite execution_summary_copied.
  - apply Hnot. unfold execution_fields. simpl. intuition discriminate.
  - apply Hnot. unfold execution_fields. simpl. intuition discriminate.
  - apply Hnot. unfold execution_fields. simpl. intuition discriminate.
Qed.

Lemma execution_record_fields_witness :
  has_key (document_members (execution_summary Platform.run_done)) "stoppedAt"
  = true.
Proof.
  refine (proj2 (proj1 (proj2 (proj2 (proj2 (proj2 (proj2 (proj2
            (execution_record_fields Platform.answer
               (Platform.start Platform.initial) "wf1" None None
               [Platform.run_done] Platform.initial
               Platform.run_done)))))))
            "stoppedAt" _) _).
  - unfold copied_fields. simpl. tauto.
  - discriminate.
Defined.

(** * Further properties *)

(** ** The limit *)

(** X1.  A limit from 1 to 100 is sent as it is and a larger one as 100;
    clamping a clamped limit changes nothing; among limits other than 0 a
    larger limit never yields a smaller one, while 0 yields more than 1
    does. *)
Theorem validLimit_clamps (limit : option Z) (a b : Z) :
  (1 <= a <= 100 -> validLimit (Some a) = a)
  /\ (100 < a -> validLimit (Some a) = 100)
  /\ validLimit (Some (validLimit limit)) = validLimit limit
  /\ (a <> 0 -> b <> 0 -> a <= b -> validLimit (Some a) <= validLimit (Some b))
  /\ validLimit (Some 1) < validLimit (Some 0).
Proof.
  unfold validLimit. repeat split.
  - intros Ha. destruct (Z.eqb_spec a 0); lia.
  - intros Ha. destruct (Z.eqb_spec a 0); lia.
  - destruct limit as [l |].
    + destruct (Z.eqb_spec l 0);
        destruct (Z.eqb_spec (Z.min (Z.max 1 10) 100) 0);
        destruct (Z.eqb_spec (Z.min (Z.max 1 l) 100) 0); lia.
    + reflexivity.
  - intros Ha Hb Hab.
    destruct (Z.eqb_spec a 0), (Z.eqb_spec b 0); lia.
Qed.

Lemma validLimit_clamps_witness : validLimit (Some 64) = 64.
Proof.
  refine (proj1 (validLimit_clamps None 64 64) _). lia.
Defined.

(** ** The status and the error of an execution *)

(** X2.  The status is success exactly when [waitTill] is not truthy,
    [finished] is truthy, there is no truthy nested error and [stoppedAt] is
    truthy; it is waiting exactly when [waitTill] is truthy, and running
    exactly when neither [waitTill] nor [finished] is truthy. *)
Theorem execution_status_characterised (execution : object) :
  (determineExecutionStatus execution = success <->
   truthy (get execution "waitTill") = false
   /\ truthy (get execution "finished") = true
   /\ truthy (result_error execution) = false
   /\ truthy (get execution "stoppedAt") = true)
  /\ (determineExecutionStatus execution = waiting <->
      truthy (get execution "waitTill") = true)
  /\ (determineExecutionStatus execution = running <->
      truthy (get execution "waitTill") = false
      /\ truthy (get execution "finished") = false).
Proof.
  unfold determineExecutionStatus.
  destruct (truthy (get execution "waitTill")),
           (truthy (get execution "finished")),
           (truthy (result_error execution)),
           (truthy (get execution "stoppedAt"));
    cbn; repeat split; intros; try discriminate; try tauto;
    repeat match goal with H : _ /\ _ |- _ => destruct H end;
    discriminate.
Qed.

Lemma execution_status_characterised_witness :
  determineExecutionStatus Platform.run_going = running.
Proof.
  refine (proj2 (proj2 (proj2
            (execution_status_characterised Platform.run_going))) _).
  split; reflexivity.
Defined.

(** X3.  The record made of an execution depends on the properties id,
    workflowId, finished, mode, startedAt, stoppedAt, waitTill and data of
    the upstream record only: the status upstream reports, like any other
    property, has no effect on it. *)
Theorem execution_summary_reads (e1 e2 : object) :
  (forall k,
      In k ["id"; "workflowId"; "finished"; "mode"; "startedAt"; "stoppedAt";
            "waitTill"; "data"] ->
      get e1 k = get e2 k) ->
  execution_summary e1 = execution_summary e2.
Proof.
  intros Hsame.
  assert (Hk : forall k,
             existsb (String.eqb k)
               ["id"; "workflowId"; "finished"; "mode"; "startedAt";
                "stoppedAt"; "waitTill"; "data"] = true ->
             get e1 k = get e2 k).
  { intros k Hk. apply Hsame. apply existsb_exists in Hk.
    destruct Hk as [x [Hin Heq]]. apply String.eqb_eq in Heq. now subst. }
  unfold execution_summary, determineExecutionStatus, result_error.
  rewrite !(Hk "id" eq_refl), !(Hk "workflowId" eq_refl),
    !(Hk "finished" eq_refl), !(Hk "mode" eq_refl),
    !(Hk "startedAt" eq_refl), !(Hk "stoppedAt" eq_refl),
    !(Hk "waitTill" eq_refl), !(Hk "data" eq_refl).
  reflexivity.
Qed.

Lemma execution_summary_reads_witness :
  execution_summary (("status", VStr "crashed") :: Platform.run_going) =
  execution_summary Platform.run_going.
Proof.
  apply execution_summary_reads.
  simpl. intros k [<- | [<- | [<- | [<- | [<- | [<- | [<- | [<- | []]]]]]]]];
    reflexivity.
Defined.

Lemma falsy_has_no_property (v : value) (k : string) :
  truthy v = false -> opt_get v k = VUndefined.
Proof. destruct v; try reflexivity. discriminate. Qed.

(** X4.  A record whose status is success has the error null; so a record
    with an error message is reported as error, waiting or running. *)
Theorem success_has_no_error (execution : object) :
  determineExecutionStatus execution = success ->
  get (execution_summary execution) "error" = VNull.
Proof.
  intros Hstatus.
  change (get (execution_summary execution) "error")
    with (or_else (opt_get (result_error execution) "message") VNull).
  unfold determineExecutionStatus in Hstatus.
  destruct (truthy (get execution "waitTill")); [discriminate |].
  destruct (truthy (get execution "finished")); [| discriminate].
  destruct (truthy (result_error execution)) eqn:Herror; [discriminate |].
  now rewrite (falsy_has_no_property _ _ Herror).
Qed.

Lemma success_has_no_error_witness :
  get (execution_summary Platform.run_done) "error" = VNull.
Proof.
  apply success_has_no_error. reflexivity.
Defined.

(** ** The errors of an upstream failure *)

Lemma handleAxiosError_refused (e : Exn) (context : string) :
  refused e = true ->
  exists message, forall context',
    handleAxiosError e context' = McpError InvalidRequest message.
Proof.
  destruct e as [| [r |] message | |]; try discriminate.
  cbn [refused handleAxiosError option_map]. intros Hr.
  destruct (Z.eqb_spec (response_status r) 401) as [-> | H1];
    [eexists; reflexivity |].
  destruct (Z.eqb_spec (response_status r) 403) as [-> | H3];
    [eexists; reflexivity |].
  destruct (Z.eqb_spec (response_status r) 404) as [-> | H4];
    [eexists; reflexivity | discriminate].
Qed.

Lemma handleAxiosError_other (e : Exn) :
  refused e = false ->
  exists detail, forall context,
    handleAxiosError e context =
    McpError InternalError (context ++ ": " ++ detail).
Proof.
  destruct e as [code message | [r |] message | message | v];
    cbn [refused handleAxiosError option_map]; intros Hr;
    try (eexists; intros; reflexivity).
  exists (upstream_message (Some r) message). intros context.
  destruct (response_status r) as [| p | p]; try reflexivity.
  do 9 (destruct p; try reflexivity); discriminate.
Qed.

(** X5.  The error made of an upstream failure has the code
    [InvalidRequest] exactly when the failure carries a response with the
    status 401, 403 or 404, and then its message does not depend on the
    handler's context; any other failure gives the code [InternalError] and
    a message that is the context, a colon and a detail that does not depend
    on the context. *)
Theorem upstream_error_codes (e : Exn) (context : string) :
  code_of (handleAxiosError e context) =
    Some (if refused e then InvalidRequest else InternalError)
  /\ (refused e = true ->
      forall context',
        handleAxiosError e context' = handleAxiosError e context)
  /\ (refused e = false ->
      exists detail, forall context',
        handleAxiosError e context' =
        McpError InternalError (context' ++ ": " ++ detail)).
Proof.
  destruct (refused e) eqn:Hr.
  - destruct (handleAxiosError_refused e context Hr) as [message Hm].
    repeat split.
    + now rewrite Hm.
    + intros _ context'. now rewrite !Hm.
    + discriminate.
  - destruct (handleAxiosError_other e Hr) as [detail Hd].
    repeat split.
    + now rewrite Hd.
    + discriminate.
    + intros _. now exists detail.
Qed.

Lemma upstream_error_codes_witness :
  handleAxiosError Platform.not_found "Failed to trigger workflow wf9" =
  handleAxiosError Platform.not_found "Failed to get workflow wf9".
Proof.
  refine (proj1 (proj2 (upstream_error_codes Platform.not_found
                          "Failed to get workflow wf9")) _
            "Failed to trigger workflow wf9").
  reflexivity.
Defined.

(** ** The outcomes of a tool call *)

Section Outcomes.

Context {World : Type}.
Variable upstream : World -> forall r : Request, (Exn + Response r) * World.

Lemma listWorkflows_handled (s : State World) :
  handled s (listWorkflows upstream s)
  /\ exists r, calls (snd (listWorkflows upstream s)) = (calls s ++ [r])%list
               /\ method r = GET.
Proof.
  rewrite listWorkflows_run.
  destruct (upstream (world s) GET_workflows) as [[e | response] w].
  - split; [| exists GET_workflows; now split].
    exists [GET_workflows]. repeat split; [discriminate |].
    right. now exists e, "Failed to list workflows".
  - split; [| exists GET_workflows; now split].
    exists [GET_workflows]. repeat split; [discriminate |].
    left. eexists. split; reflexivity.
Qed.

Lemma getWorkflow_handled (workflowId : string) (s : State World) :
  handled s (getWorkflow upstream workflowId s)
  /\ exists r,
       calls (snd (getWorkflow upstream workflowId s)) = (calls s ++ [r])%list
       /\ method r = GET.
Proof.
  rewrite getWorkflow_run.
  destruct (upstream (world s) (GET_workflow workflowId)) as [[e | response] w].
  - split; [| exists (GET_workflow workflowId); now split].
    exists [GET_workflow workflowId]. repeat split; [discriminate |].
    right. now exists e, ("Failed to get workflow " ++ workflowId).
  - split; [| exists (GET_workflow workflowId); now split].
    exists [GET_workflow workflowId]. repeat split; [discriminate |].
    left. eexists. split; reflexivity.
Qed.

Lemma getExecutions_handled (workflowId : string) (limit : option Z)
  (s : State World) :
  handled s (getExecutions upstream workflowId limit s)
  /\ exists r,
       calls (snd (getExecutions upstream workflowId limit s)) =
       (calls s ++ [r])%list
       /\ method r = GET.
Proof.
  pose proof (getExecutions_run upstream workflowId limit s) as Hrun.
  cbv zeta in Hrun. rewrite Hrun. clear Hrun.
  set (request := GET_executions workflowId (validLimit limit)).
  destruct (upstream (world s) request) as [[e | response] w].
  - split; [| exists request; now split].
    exists [request]. repeat split; [discriminate |].
    right. now exists e, ("Failed to get executions for workflow " ++ workflowId).
  - split; [| exists request; now split].
    exists [request]. repeat split; [discriminate |].
    left. eexists. split; reflexivity.
Qed.

(** The requests of a run of [triggerWorkflow]: the activation, then the
    fetch, then the test, as far as the run got. *)
Lemma triggerWorkflow_issued (workflowId : string) (data : option object)
  (s : State World) :
  let run := triggerWorkflow upstream workflowId data s in
  handled s run
  /\ exists later : list Request,
       calls (snd run) =
       (calls s ++ activate_request workflowId data :: later)%list
       /\ (later = []
           \/ later = [GET_workflow workflowId]
           \/ exists workflow,
                later = [GET_workflow workflowId;
                         test_request workflowId workflow data])
       /\ ((exists result, fst run = inr result) ->
           exists workflow,
             later = [GET_workflow workflowId;
                      test_request workflowId workflow data]).
Proof.
  pose proof (triggerWorkflow_run upstream workflowId data s) as Hrun.
  cbv zeta in Hrun |- *. rewrite Hrun. clear Hrun.
  set (context := "Failed to trigger workflow " ++ workflowId).
  set (activate := activate_request workflowId data).
  set (fetch := GET_workflow workflowId).
  destruct (upstream (world s) activate) as [[e1 | activated] w1].
  { split.
    - exists [activate]. repeat split; [discriminate |].
      right. now exists e1, context.
    - exists []. repeat split; [now left |].
      intros [result Hresult]. discriminate. }
  destruct (upstream w1 fetch) as [[e2 | workflow] w2].
  { split.
    - exists [activate; fetch]. repeat split; [discriminate |].
      right. now exists e2, context.
    - exists [fetch]. repeat split; [right; now left |].
      intros [result Hresult]. discriminate. }
  set (test := test_request workflowId workflow data).
  destruct (upstream w2 test) as [[e3 | testResponse] w3].
  - split.
    + exists [activate; fetch; test]. repeat split; [discriminate |].
      right. now exists e3, context.
    + exists [fetch; test]. repeat split; [right; right; now exists workflow |].
      intros [result Hresult]. discriminate.
  - split.
    + exists [activate; fetch; test]. repeat split; [discriminate |].
      left. eexists. split; reflexivity.
    + exists [fetch; test]. repeat split; [right; right; now exists workflow |].
      intros _. now exists workflow.
Qed.

(** What the [switch] comes to, by the name and the workflow_id. *)
Lemma route_cases (params : CallToolParams) (s : State World) :
  let run := route upstream params s in
  let args := arguments params in
  (~ In (name params) routed_tools
   /\ run = (inl (McpError MethodNotFound ("Unknown tool: " ++ name params)), s))
  \/ (In (name params) workflow_tools
      /\ (args_workflow_id args = None \/ args_workflow_id args = Some "")
      /\ run = (inl workflow_id_required, s))
  \/ (name params = "list_workflows" /\ run = listWorkflows upstream s)
  \/ (exists workflowId,
         workflowId <> "" /\ args_workflow_id args = Some workflowId
         /\ ((name params = "get_workflow"
              /\ run = getWorkflow upstream workflowId s)
             \/ (name params = "get_executions"
                 /\ run = getExecutions upstream workflowId (args_limit args) s)
             \/ (name params = "trigger_workflow"
                 /\ run = triggerWorkflow upstream workflowId (args_data args)
                            s))).
Proof.
  cbv zeta. destruct params as [tool args]. cbn [name arguments].
  destruct (in_dec string_dec tool routed_tools) as [Hin | Hout].
  - unfold routed_tools in Hin. simpl in Hin.
    destruct Hin as [<- | Hin]; [right; right; left; now split |].
    assert (Hwf : In tool workflow_tools) by (unfold workflow_tools; simpl; tauto).
    destruct (args_workflow_id args) as [workflowId |] eqn:Hid.
    + destruct (String.eqb_spec workflowId "") as [-> | Hne].
      * right; left. repeat split; [exact Hwf | now right |].
        apply route_without_workflow_id; [exact Hwf | now right].
      * right; right; right. exists workflowId. repeat split; [exact Hne |].
        apply truthy_string in Hne.
        destruct Hin as [<- | [<- | [<- | []]]]; unfold route;
          cbn [name arguments String.eqb Ascii.eqb Bool.eqb]; rewrite Hid;
          cbn -[truthy]; rewrite Hne; cbn; tauto.
    + right; left. repeat split; [exact Hwf | now left |].
      apply route_without_workflow_id; [exact Hwf | now left].
  - left. split; [exact Hout |]. now apply route_unknown_tool.
Qed.

Lemma handled_not_same (s : State World)
  (run : (Exn + CallToolResult) * State World) :
  handled s run ->
  (List.length (calls s) < List.length (calls (snd run)))%nat.
Proof.
  intros (issued & Hne & Hcalls & _). rewrite Hcalls, length_app.
  destruct issued; [contradiction | simpl; lia].
Qed.

Lemma route_handled (params : CallToolParams) (s : State World) :
  let run := route upstream params s in
  run = (inl (McpError MethodNotFound ("Unknown tool: " ++ name params)), s)
  \/ run = (inl workflow_id_required, s)
  \/ handled s run.
Proof.
  cbv zeta.
  destruct (route_cases params s)
    as [[_ H] | [(_ & _ & H) | [[_ H] | (id & _ & _ & [[_ H] | [[_ H] | [_ H]]])]]];
    cbv zeta in H; rewrite H; auto; right; right.
  - apply listWorkflows_handled.
  - apply getWorkflow_handled.
  - apply getExecutions_handled.
  - apply (triggerWorkflow_issued id (args_data (arguments params)) s).
Qed.

End Outcomes.

(** X6.  Whatever a tool call throws is an [McpError], and its code tells
    whether upstream was contacted: with [InvalidParams] or [MethodNotFound]
    the run is where it was, no request issued; with [InvalidRequest] or
    [InternalError] at least one request has been issued. *)
Theorem tool_call_errors {World : Type}
  (upstream : World -> forall r : Request, (Exn + Response r) * World)
  (params : CallToolParams) (s s' : State World) (e : Exn) :
  CallToolHandler upstream params s = (inl e, s') ->
  exists code message,
    e = McpError code message
    /\ (((code = InvalidParams \/ code = MethodNotFound) /\ s' = s)
        \/ ((code = InvalidRequest \/ code = InternalError)
            /\ (List.length (calls s) < List.length (calls s'))%nat)).
Proof.
  rewrite CallToolHandler_run. intros Hrun.
  destruct (route_handled upstream params s) as [H | [H | H]];
    cbv zeta in H.
  - rewrite Hrun in H. injection H as -> ->.
    do 2 eexists. split; [reflexivity |]. left. split; [now right | reflexivity].
  - rewrite Hrun in H. injection H as -> ->.
    do 2 eexists. split; [reflexivity |]. left. split; [now left | reflexivity].
  - pose proof (handled_not_same _ _ H) as Hlen.
    destruct H as (issued & _ & _ & [(payload & Hfst & _) | (failure & context & Hfst)]);
      rewrite Hrun in Hfst, Hlen; cbn in Hfst, Hlen; [discriminate |].
    injection Hfst as ->.
    destruct (refused failure) eqn:Hr.
    + destruct (handleAxiosError_refused failure context Hr) as [message Hm].
      exists InvalidRequest, message. split; [apply Hm |].
      right. split; [now left | exact Hlen].
    + destruct (handleAxiosError_other failure Hr) as [detail Hd].
      eexists InternalError, _. split; [apply Hd |].
      right. split; [now right | exact Hlen].
Qed.

Lemma tool_call_errors_witness :
  exists code message,
    Platform.not_found_error = McpError code message
    /\ (((code = InvalidParams \/ code = MethodNotFound)
         /\ Platform.after_missing = Platform.start Platform.initial)
        \/ ((code = InvalidRequest \/ code = InternalError)
            /\ (List.length (calls (Platform.start Platform.initial))
                < List.length (calls Platform.after_missing))%nat)).
Proof.
  refine (tool_call_errors Platform.answer
            {| name := "get_workflow";
               arguments := Some {| workflow_id := Some "wf9"; limit := None;
                                    data := None |} |}
            (Platform.start Platform.initial) Platform.after_missing
            Platform.not_found_error _).
  reflexivity.
Defined.

(** X7.  A tool call that returns a result has issued at least one request,
    and the result is one text, without the [isError] flag, whose payload is
    an object with [success: true]: the payload [{success: false, error}]
    is never what a tool call returns. *)
Theorem tool_call_results {World : Type}
  (upstream : World -> forall r : Request, (Exn + Response r) * World)
  (params : CallToolParams) (s s' : State World) (result : CallToolResult) :
  CallToolHandler upstream params s = (inr result, s') ->
  isError result = None
  /\ (exists payload : object,
         content result =
           [ {| type := "text"; text := JSON_stringify "  " (VObj payload) |} ]
         /\ get payload "success" = VBool true)
  /\ (List.length (calls s) < List.length (calls s'))%nat.
Proof.
  rewrite CallToolHandler_run. intros Hrun.
  destruct (route_handled upstream params s) as [H | [H | H]];
    cbv zeta in H; try (rewrite Hrun in H; discriminate).
  pose proof (handled_not_same _ _ H) as Hlen.
  destruct H as (issued & _ & _ & [(payload & Hfst & Hsuccess) | (failure & context & Hfst)]);
    rewrite Hrun in Hfst, Hlen; cbn in Hfst, Hlen; [| discriminate].
  injection Hfst as ->. repeat split; [| exact Hlen].
  exists payload. now split.
Qed.

Lemma tool_call_results_witness :
  isError (text_result (workflows_payload (Platform.workflows Platform.initial)))
  = None.
Proof.
  refine (proj1 (tool_call_results Platform.answer
                   {| name := "list_workflows"; arguments := None |}
                   (Platform.start Platform.initial)
                   (after (Platform.start Platform.initial) Platform.initial
                      [GET_workflows])
                   _ _)).
  reflexivity.
Defined.

(** X8.  A call of list_workflows, get_workflow or get_executions issues at
    most one request, and it is a GET: these tools never send a POST. *)
Theorem read_tools_only_get {World : Type}
  (upstream : World -> forall r : Request, (Exn + Response r) * World)
  (params : CallToolParams) (s : State World) :
  In (name params) ["list_workflows"; "get_workflow"; "get_executions"] ->
  exists issued : list Request,
    calls (snd (CallToolHandler upstream params s)) = (calls s ++ issued)%list
    /\ (List.length issued <= 1)%nat
    /\ Forall (fun r => method r = GET) issued.
Proof.
  intros Htool. rewrite CallToolHandler_run.
  assert (Hnone : exists issued : list Request,
             calls s = (calls s ++ issued)%list
             /\ (List.length issued <= 1)%nat
             /\ Forall (fun r => method r = GET) issued).
  { exists []. rewrite app_nil_r. repeat split; [simpl; lia | constructor]. }
  assert (Hone : forall run : (Exn + CallToolResult) * State World,
             (exists r, calls (snd run) = (calls s ++ [r])%list /\ method r = GET) ->
             exists issued : list Request,
               calls (snd run) = (calls s ++ issued)%list
               /\ (List.length issued <= 1)%nat
               /\ Forall (fun r => method r = GET) issued).
  { intros run (r & Hcalls & Hget). exists [r].
    repeat split; [exact Hcalls | simpl; lia | now repeat constructor]. }
  destruct (route_cases upstream params s)
    as [[_ H] | [(_ & _ & H) | [[_ H] | (id & _ & _ & [[_ H] | [[_ H] | [Hname _]]])]]];
    try (cbv zeta in H; rewrite H).
  - exact Hnone.
  - exact Hnone.
  - apply Hone, listWorkflows_handled.
  - apply Hone, getWorkflow_handled.
  - apply Hone, getExecutions_handled.
  - rewrite Hname in Htool. simpl in Htool.
    destruct Htool as [H' | [H' | [H' | []]]]; discriminate.
Qed.

Lemma read_tools_only_get_witness :
  exists issued : list Request,
    calls (snd (CallToolHandler Platform.answer
                  {| name := "get_executions";
                     arguments := Some {| workflow_id := Some "wf1";
                                          limit := Some 3; data := None |} |}
                  (Platform.start Platform.initial))) =
    (calls (Platform.start Platform.initial) ++ issued)%list
    /\ (List.length issued <= 1)%nat
    /\ Forall (fun r => method r = GET) issued.
Proof.
  apply (read_tools_only_get Platform.answer
           {| name := "get_executions";
              arguments := Some {| workflow_id := Some "wf1";
                                   limit := Some 3; data := None |} |}
           (Platform.start Platform.initial)).
  simpl. tauto.
Defined.

(** X9.  A call of trigger_workflow with a non-empty workflow_id always
    starts with the POST that activates the workflow, whatever the workflow's
    state and whether it exists; at most two requests follow, the fetch and
    the test, and a call that returns a result has issued all three. *)
Theorem trigger_workflow_requests {World : Type}
  (upstream : World -> forall r : Request, (Exn + Response r) * World)
  (s : State World) (workflowId : string) (limit : option Z)
  (data : option object) :
  workflowId <> "" ->
  let run :=
    CallToolHandler upstream
      {| name := "trigger_workflow";
         arguments := Some {| workflow_id := Some workflowId; limit := limit;
                              data := data |} |} s in
  exists later : list Request,
    calls (snd run) =
      (calls s ++ activate_request workflowId data :: later)%list
    /\ method (activate_request workflowId data) = POST
    /\ (later = []
        \/ later = [GET_workflow workflowId]
        \/ exists workflow,
             later = [GET_workflow workflowId;
                      test_request workflowId workflow data])
    /\ ((exists result, fst run = inr result) ->
        exists workflow,
          later = [GET_workflow workflowId;
                   test_request workflowId workflow data]).
Proof.
  intros Hid run. unfold run. rewrite CallToolHandler_run.
  destruct (route_with_workflow_id upstream "trigger_workflow" workflowId
              limit data s Hid) as (_ & _ & Hroute).
  rewrite (Hroute eq_refl).
  destruct (triggerWorkflow_issued upstream workflowId data s)
    as (_ & later & Hcalls & Hlater & Hresult).
  exists later. repeat split; assumption.
Qed.

Lemma trigger_workflow_requests_witness :
  exists later : list Request,
    calls (snd (CallToolHandler Platform.answer
                  {| name := "trigger_workflow";
                     arguments := Some {| workflow_id := Some "wf9";
                                          limit := None; data := None |} |}
                  (Platform.start Platform.initial))) =
      (calls (Platform.start Platform.initial)
         ++ activate_request "wf9" None :: later)%list
    /\ method (activate_request "wf9" None) = POST
    /\ (later = []
        \/ later = [GET_workflow "wf9"]
        \/ exists workflow,
             later = [GET_workflow "wf9"; test_request "wf9" workflow None])
    /\ ((exists result,
            fst (CallToolHandler Platform.answer
                   {| name := "trigger_workflow";
                      arguments := Some {| workflow_id := Some "wf9";
                                           limit := None; data := None |} |}
                   (Platform.start Platform.initial)) = inr result) ->
        exists workflow,
          later = [GET_workflow "wf9"; test_request "wf9" workflow None]).
Proof.
  apply (trigger_workflow_requests Platform.answer
           (Platform.start Platform.initial) "wf9" None None).
  discriminate.
Defined.

(** ** Values from upstream in the output *)

Lemma json_value_defined (v : value) :
  json_value v = true -> is_undefined v = false.
Proof. destruct v; try reflexivity. discriminate. Qed.

(** A value in which [undefined] does not occur is printed as it is. *)
Lemma document_of_json (v : value) :
  json_value v = true -> JSON_document v = v.
Proof.
  induction v as [| | b | z | s | xs IH | o IH] using value_induction;
    try reflexivity.
  - intros Hjson. simpl in Hjson. simpl. f_equal.
    induction xs as [| x xs IHxs]; [reflexivity |].
    simpl in Hjson. apply andb_true_iff in Hjson. destruct Hjson as [Hx Hxs].
    inversion IH as [| ? ? Px Pxs]; subst. simpl.
    rewrite (IHxs Pxs Hxs). f_equal.
    rewrite <- (Px Hx) at 2. destruct x; try reflexivity. discriminate.
  - intros Hjson. simpl in Hjson. rewrite document_of_object. f_equal.
    induction o as [| [k x] o IHo]; [reflexivity |].
    simpl in Hjson. apply andb_true_iff in Hjson. destruct Hjson as [Hx Ho].
    inversion IH as [| ? ? Px Pxs]; subst. simpl in Px.
    rewrite document_members_cons, (json_value_defined _ Hx).
    now rewrite (Px Hx), (IHo Pxs Ho).
Qed.

Lemma NoDup_workflow_fields : NoDup workflow_fields.
Proof.
  unfold workflow_fields.
  repeat (constructor; [simpl; intuition discriminate |]). constructor.
Qed.

Lemma workflow_detail_get (workflow : object) (k : string) :
  get (workflow_detail workflow) k =
  if existsb (String.eqb k) workflow_fields then get workflow k else VUndefined.
Proof.
  unfold workflow_detail, workflow_fields. cbn [get existsb].
  repeat match goal with
         | |- context [String.eqb ?a k] =>
             rewrite (String.eqb_sym a k);
             destruct (String.eqb_spec k a) as [-> | _]; [reflexivity |]
         end.
  reflexivity.
Qed.

Lemma existsb_eqb_In (k : string) (l : list string) :
  existsb (String.eqb k) l = true <-> In k l.
Proof.
  rewrite existsb_exists. split.
  - intros [x [Hin Heq]]. apply String.eqb_eq in Heq. now subst.
  - intros Hin. exists k. split; [exact Hin | apply String.eqb_refl].
Qed.

(** X10.  When the upstream get-workflow call answers with a record,
    get_workflow returns the text of [{success: true, workflow}], where
    [workflow] is the upstream record restricted to id, name, active, nodes,
    connections, settings, staticData, tags, createdAt, updatedAt: each of
    these the upstream record has is there, printed as [JSON.stringify]
    prints it, and unchanged when it came out of JSON; no other property of
    the upstream record is there.  On the summary fields the record agrees
    with the one list_workflows builds of the same upstream record. *)
Theorem get_workflow_detail {World : Type}
  (upstream : World -> forall r : Request, (Exn + Response r) * World)
  (s : State World) (workflowId : string) (limit : option Z)
  (data : option object) (workflow : object) (w : World) :
  workflowId <> "" ->
  upstream (world s) (GET_workflow workflowId) = (inr workflow, w) ->
  let shown := document_members (workflow_detail workflow) in
  CallToolHandler upstream
    {| name := "get_workflow";
       arguments := Some {| workflow_id := Some workflowId; limit := limit;
                            data := data |} |} s =
    (inr {| content :=
              [ {| type := "text";
                   text := JSON_print "  " ""
                             (VObj [("success", VBool true);
                                    ("workflow", VObj shown)]) |} ];
            isError := None |},
     after s w [GET_workflow workflowId])
  /\ incl (keys shown) workflow_fields
  /\ (forall k, In k workflow_fields ->
                get shown k = JSON_document (get workflow k))
  /\ (forall k, In k workflow_fields -> json_value (get workflow k) = true ->
                get shown k = get workflow k)
  /\ (forall k, ~ In k workflow_fields -> has_key shown k = false)
  /\ (forall k, In k summary_fields ->
                get (workflow_detail workflow) k =
                get (workflow_summary workflow) k).
Proof.
  intros Hid Hanswer shown.
  assert (Hnodup : NoDup (keys (workflow_detail workflow)))
    by apply NoDup_workflow_fields.
  assert (Hget : forall k, In k workflow_fields ->
                   get shown k = JSON_document (get workflow k)).
  { intros k Hk. unfold shown. rewrite (document_get _ _ Hnodup).
    rewrite workflow_detail_get.
    now rewrite (proj2 (existsb_eqb_In k workflow_fields) Hk). }
  repeat split.
  - rewrite CallToolHandler_run.
    destruct (route_with_workflow_id upstream "get_workflow" workflowId
                limit data s Hid) as (Hroute & _).
    rewrite (Hroute eq_refl), getWorkflow_run, Hanswer.
    unfold text_result, JSON_stringify, workflow_payload.
    rewrite document_of_object. repeat rewrite document_members_cons.
    cbn [is_undefined]. rewrite document_of_object. reflexivity.
  - apply (document_keys_incl (workflow_detail workflow)).
  - exact Hget.
  - intros k Hk Hjson. rewrite (Hget k Hk). now apply document_of_json.
  - intros k Hk. destruct (has_key shown k) eqn:Hshown; [| reflexivity].
    apply (document_has_key _ _ Hnodup) in Hshown.
    destruct Hshown as [Hin _]. contradiction.
  - intros k Hk. rewrite workflow_detail_get, workflow_summary_get.
    rewrite (proj2 (existsb_eqb_In k summary_fields) Hk).
    assert (Hin : In k workflow_fields).
    { revert Hk. unfold summary_fields, workflow_fields. simpl. tauto. }
    now rewrite (proj2 (existsb_eqb_In k workflow_fields) Hin).
Qed.

Lemma get_workflow_detail_witness :
  get (document_members (workflow_detail Platform.invoice_sync)) "nodes" =
  get Platform.invoice_sync "nodes".
Proof.
  refine (proj1 (proj2 (proj2 (proj2
            (get_workflow_detail Platform.answer
               (Platform.start Platform.initial) "wf1" None None
               Platform.invoice_sync Platform.initial _ _))))
            "nodes" _ _).
  - discriminate.
  - reflexivity.
  - unfold workflow_fields. simpl. tauto.
  - reflexivity.
Defined.

(** X11.  When the upstream executions call answers with a list of records,
    get_executions returns all of them, in the upstream order, however many
    they are and whatever limit was sent; [count] is their number, and
    [workflowId] is the argument of the call, whatever the records say. *)
Theorem get_executions_returns_all {World : Type}
  (upstream : World -> forall r : Request, (Exn + Response r) * World)
  (s : State World) (workflowId : string) (limit : option Z)
  (data : option object) (response : list object) (w : World) :
  workflowId <> "" ->
  upstream (world s) (GET_executions workflowId (validLimit limit)) =
    (inr response, w) ->
  exists (payload : object) (executions : list value),
    fst (CallToolHandler upstream
           {| name := "get_executions";
              arguments := Some {| workflow_id := Some workflowId;
                                   limit := limit; data := data |} |} s) =
      inr (text_result (VObj payload))
    /\ get payload "workflowId" = VStr workflowId
    /\ get payload "count" = VNum (Z.of_nat (List.length response))
    /\ get payload "executions" = VArr executions
    /\ List.length executions = List.length response
    /\ forall i : nat,
         nth_error executions i =
         option_map (fun e => VObj (execution_summary e)) (nth_error response i).
Proof.
  intros Hid Hanswer.
  exists [("success", VBool true);
          ("workflowId", VStr workflowId);
          ("count", VNum (Z.of_nat (List.length response)));
          ("executions", VArr (map VObj (map execution_summary response)))],
    (map VObj (map execution_summary response)).
  rewrite CallToolHandler_run.
  destruct (route_with_workflow_id upstream "get_executions" workflowId
              limit data s Hid) as (_ & Hroute & _).
  rewrite (Hroute eq_refl).
  pose proof (getExecutions_run upstream workflowId limit s) as Hrun.
  cbv zeta in Hrun. rewrite Hrun, Hanswer. clear Hrun.
  split; [reflexivity |]. split; [reflexivity |]. split; [reflexivity |].
  split; [reflexivity |]. split.
  - now rewrite !length_map.
  - intros i. rewrite map_map. apply nth_error_map.
Qed.

Lemma get_executions_returns_all_witness :
  exists (payload : object) (executions : list value),
    fst (CallToolHandler Platform.answer
           {| name := "get_executions";
              arguments := Some {| workflow_id := Some "wf1";
                                   limit := Some 2; data := None |} |}
           (Platform.start Platform.initial)) =
      inr (text_result (VObj payload))
    /\ get payload "workflowId" = VStr "wf1"
    /\ get payload "count" = VNum (Z.of_nat 2)
    /\ get payload "executions" = VArr executions
    /\ List.length executions = 2%nat
    /\ forall i : nat,
         nth_error executions i =
         option_map (fun e => VObj (execution_summary e))
           (nth_error [Platform.run_done; Platform.run_going] i).
Proof.
  refine (get_executions_returns_all Platform.answer
            (Platform.start Platform.initial) "wf1" (Some 2) None
            [Platform.run_done; Platform.run_going] Platform.initial _ _).
  - discriminate.
  - reflexivity.
Defined.

(** ** The list of tools and the dispatcher *)

Lemma listed_tool_unfold (n : string) :
  listed_tool n =
  if String.eqb "list_workflows" n then Some (nth 0 Setup.tools [])
  else if String.eqb "get_workflow" n then Some (nth 1 Setup.tools [])
  else if String.eqb "get_executions" n then Some (nth 2 Setup.tools [])
  else if String.eqb "trigger_workflow" n then Some (nth 3 Setup.tools [])
  else None.
Proof. reflexivity. Qed.

Lemma listed_tool_cases (n : string) :
  (~ In n routed_tools /\ listed_tool n = None)
  \/ (exists tool, listed_tool n = Some tool /\ In n routed_tools).
Proof.
  rewrite listed_tool_unfold. unfold routed_tools.
  repeat match goal with
         | |- context [String.eqb ?a n] =>
             destruct (String.eqb_spec a n) as [<- | ?];
             [right; eexists; split; [reflexivity | simpl; tauto] |]
         end.
  left. split; [simpl; intuition congruence | reflexivity].
Qed.

Section Tools.

Context {World : Type}.
Variable upstream : World -> forall r : Request, (Exn + Response r) * World.

Lemma routed_tool_is_found (n : string) (args : option Arguments)
  (s : State World) :
  In n routed_tools ->
  route upstream {| name := n; arguments := args |} s <>
  (inl (McpError MethodNotFound ("Unknown tool: " ++ n)), s).
Proof.
  intros Hin Hrun.
  assert (Hgrow : forall run : (Exn + CallToolResult) * State World,
             handled s run ->
             route upstream {| name := n; arguments := args |} s = run ->
             False).
  { intros run Hhandled Heq. apply handled_not_same in Hhandled.
    rewrite <- Heq, Hrun in Hhandled. cbn in Hhandled. lia. }
  destruct (route_cases upstream {| name := n; arguments := args |} s)
    as [[Hout _] | [(_ & _ & H) | [[_ H] | (id & _ & _ & [[_ H] | [[_ H] | [_ H]]])]]];
    cbn [name arguments] in *.
  - contradiction.
  - rewrite Hrun in H. discriminate.
  - apply (Hgrow _ (proj1 (listWorkflows_handled upstream s)) H).
  - apply (Hgrow _ (proj1 (getWorkflow_handled upstream id s)) H).
  - apply (Hgrow _ (proj1 (getExecutions_handled upstream id (args_limit args) s)) H).
  - apply (Hgrow _ (proj1 (triggerWorkflow_issued upstream id (args_data args) s)) H).
Qed.

End Tools.

(** X12.  The tools the server lists are the tools it runs: a call is
    refused with [MethodNotFound] "Unknown tool: <name>", and nothing is
    sent upstream, exactly when no listed tool has the name of the call. *)
Theorem listed_tools_are_routed {World : Type}
  (upstream : World -> forall r : Request, (Exn + Response r) * World)
  (s : State World) (n : string) (args : option Arguments) :
  listed_tool n = None <->
  CallToolHandler upstream {| name := n; arguments := args |} s =
  (inl (McpError MethodNotFound ("Unknown tool: " ++ n)), s).
Proof.
  rewrite CallToolHandler_run.
  destruct (listed_tool_cases n) as [[Hout Hnone] | (tool & Hsome & Hin)].
  - split; [| now intros _]. intros _. now apply route_unknown_tool.
  - split.
    + rewrite Hsome. discriminate.
    + intros Hrun. now apply routed_tool_is_found in Hrun.
Qed.

Lemma listed_tools_are_routed_witness :
  CallToolHandler Platform.answer
    {| name := "delete_workflow";
       arguments := Some {| workflow_id := Some "wf1"; limit := None;
                            data := None |} |}
    (Platform.start Platform.initial) =
  (inl (McpError MethodNotFound "Unknown tool: delete_workflow"),
   Platform.start Platform.initial).
Proof.
  refine (proj1 (listed_tools_are_routed Platform.answer
                   (Platform.start Platform.initial) "delete_workflow" _) _).
  reflexivity.
Defined.

(** X13.  What a tool's input schema lists as required is what the
    dispatcher checks: a listed tool whose schema requires workflow_id
    refuses a call without arguments with [InvalidParams] before anything is
    sent, a listed tool whose schema does not require it lets the call
    through, and no schema requires anything but workflow_id. *)
Theorem required_arguments_are_checked {World : Type}
  (upstream : World -> forall r : Request, (Exn + Response r) * World)
  (s : State World) (n : string) (tool : object) :
  listed_tool n = Some tool ->
  (In (VStr "workflow_id") (required_arguments tool) <->
   CallToolHandler upstream {| name := n; arguments := None |} s =
   (inl (McpError InvalidParams "workflow_id is required"), s))
  /\ incl (required_arguments tool) [VStr "workflow_id"].
Proof.
  intros Htool. rewrite CallToolHandler_run.
  rewrite listed_tool_unfold in Htool.
  destruct (String.eqb_spec "list_workflows" n) as [<- | _].
  { injection Htool as <-. split.
    - split; [intros [] |]. intros Hrun.
      rewrite route_list_workflows in Hrun.
      pose proof (handled_not_same _ _ (proj1 (listWorkflows_handled upstream s)))
        as Hlen.
      rewrite Hrun in Hlen. cbn in Hlen. lia.
    - intros x []. }
  assert (Hthree : forall t, In t workflow_tools ->
            route upstream {| name := t; arguments := None |} s =
            (inl (McpError InvalidParams "workflow_id is required"), s)).
  { intros t Ht. apply route_without_workflow_id; [exact Ht | now left]. }
  repeat match type of Htool with
         | context [String.eqb ?a n] =>
             destruct (String.eqb_spec a n) as [<- | _];
             [injection Htool as <-; split;
              [split; [intros _; apply Hthree; unfold workflow_tools; simpl; tauto
                      | intros _; cbn; now left]
              | intros x Hx; exact Hx] |]
         end.
  discriminate.
Qed.

Lemma required_arguments_are_checked_witness :
  CallToolHandler Platform.answer
    {| name := "get_executions"; arguments := None |}
    (Platform.start Platform.initial) =
  (inl (McpError InvalidParams "workflow_id is required"),
   Platform.start Platform.initial).
Proof.
  refine (proj1 (proj1 (required_arguments_are_checked Platform.answer
                          (Platform.start Platform.initial) "get_executions"
                          _ eq_refl)) _).
  cbn. now left.
Defined.

(** X14.  A tool reads the arguments its input schema declares, and no
    others: two calls of a listed tool whose arguments agree on every
    argument the schema declares do the same. *)
Theorem undeclared_arguments_are_ignored {World : Type}
  (upstream : World -> forall r : Request, (Exn + Response r) * World)
  (s : State World) (n : string) (tool : object) (a1 a2 : Arguments) :
  listed_tool n = Some tool ->
  (forall k, argument_schema tool k <> VUndefined ->
             argument a1 k = argument a2 k) ->
  CallToolHandler upstream {| name := n; arguments := Some a1 |} s =
  CallToolHandler upstream {| name := n; arguments := Some a2 |} s.
Proof.
  intros Htool Hsame. rewrite !CallToolHandler_run.
  rewrite listed_tool_unfold in Htool.
  assert (Hid : argument_schema tool "workflow_id" <> VUndefined ->
                workflow_id a1 = workflow_id a2).
  { intros H. specialize (Hsame "workflow_id" H). unfold argument in Hsame.
    cbn in Hsame. destruct (workflow_id a1), (workflow_id a2); congruence. }
  assert (Hlimit : argument_schema tool "limit" <> VUndefined ->
                   limit a1 = limit a2).
  { intros H. specialize (Hsame "limit" H). unfold argument in Hsame.
    cbn in Hsame. destruct (limit a1), (limit a2); congruence. }
  assert (Hdata : argument_schema tool "data" <> VUndefined ->
                  data a1 = data a2).
  { intros H. specialize (Hsame "data" H). unfold argument in Hsame.
    cbn in Hsame. destruct (data a1), (data a2); congruence. }
  clear Hsame.
  destruct (String.eqb_spec "list_workflows" n) as [<- | _];
    [reflexivity |].
  destruct (String.eqb_spec "get_workflow" n) as [<- | _].
  { injection Htool as <-. unfold route. cbn [name arguments String.eqb
      Ascii.eqb Bool.eqb args_workflow_id].
    rewrite Hid; [reflexivity | discriminate]. }
  destruct (String.eqb_spec "get_executions" n) as [<- | _].
  { injection Htool as <-. unfold route. cbn [name arguments String.eqb
      Ascii.eqb Bool.eqb args_workflow_id args_limit].
    rewrite Hid, Hlimit; [reflexivity | discriminate | discriminate]. }
  destruct (String.eqb_spec "trigger_workflow" n) as [<- | _];
    [| discriminate].
  injection Htool as <-. unfold route. cbn [name arguments String.eqb
    Ascii.eqb Bool.eqb args_workflow_id args_data].
  rewrite Hid, Hdata; [reflexivity | discriminate | discriminate].
Qed.

Lemma undeclared_arguments_are_ignored_witness :
  CallToolHandler Platform.answer
    {| name := "get_workflow";
       arguments := Some {| workflow_id := Some "wf2"; limit := Some 5;
                            data := Some [("x", VNum 1)] |} |}
    (Platform.start Platform.initial) =
  CallToolHandler Platform.answer
    {| name := "get_workflow";
       arguments := Some {| workflow_id := Some "wf2"; limit := None;
                            data := None |} |}
    (Platform.start Platform.initial).
Proof.
  refine (undeclared_arguments_are_ignored Platform.answer
            (Platform.start Platform.initial) "get_workflow" _ _ _ eq_refl _).
  intros k Hk. unfold argument.
  destruct (String.eqb_spec k "workflow_id") as [-> | Hne]; [reflexivity |].
  exfalso. apply Hk.
  match goal with
  | |- ?schema = _ =>
      change schema
        with (if String.eqb "workflow_id" k
              then snd (Setup.workflow_id_property
                          "The ID of the workflow to fetch")
              else VUndefined)
  end.
  destruct (String.eqb_spec "workflow_id" k); [congruence | reflexivity].
Defined.

(** X15.  The default the input schema of get_executions gives the limit is
    the one the handler uses: a call without a limit does what a call with
    that default does. *)
Theorem schema_default_limit {World : Type}
  (upstream : World -> forall r : Request, (Exn + Response r) * World)
  (s : State World) (tool : object) (default : Z) (workflowId : string)
  (data : option object) :
  listed_tool "get_executions" = Some tool ->
  opt_get (argument_schema tool "limit") "default" = VNum default ->
  CallToolHandler upstream
    {| name := "get_executions";
       arguments := Some {| workflow_id := Some workflowId; limit := None;
                            data := data |} |} s =
  CallToolHandler upstream
    {| name := "get_executions";
       arguments := Some {| workflow_id := Some workflowId;
                            limit := Some default; data := data |} |} s.
Proof.
  intros Htool Hdefault. injection Htool as <-.
  injection Hdefault as <-. rewrite !CallToolHandler_run.
  unfold route. cbn [name arguments String.eqb Ascii.eqb Bool.eqb
    args_workflow_id args_limit workflow_id limit].
  destruct (negb (truthy (VStr workflowId))); [reflexivity |].
  reflexivity.
Qed.

Lemma schema_default_limit_witness :
  CallToolHandler Platform.answer
    {| name := "get_executions";
       arguments := Some {| workflow_id := Some "wf1"; limit := None;
                            data := None |} |}
    (Platform.start Platform.initial) =
  CallToolHandler Platform.answer
    {| name := "get_executions";
       arguments := Some {| workflow_id := Some "wf1"; limit := Some 10;
                            data := None |} |}
    (Platform.start Platform.initial).
Proof.
  refine (schema_default_limit Platform.answer
            (Platform.start Platform.initial) _ 10 "wf1" None eq_refl eq_refl).
Defined.

(** ** Construction *)

Lemma strip_app_slash (u : string) :
  Setup.strip_trailing_slash (u ++ "/") = u.
Proof.
  induction u as [| c u IH]; [reflexivity |].
  cbn [append Setup.strip_trailing_slash]. rewrite IH.
  destruct u; reflexivity.
Qed.

Lemma strip_without_slash (s : string) :
  ends_with_slash s = false -> Setup.strip_trailing_slash s = s.
Proof.
  induction s as [| c s IH]; [reflexivity |].
  cbn [ends_with_slash Setup.strip_trailing_slash].
  destruct s as [| c' s].
  - intros ->. reflexivity.
  - intros Hs. now rewrite (IH Hs).
Qed.

Lemma app_slash_not_empty (u : string) : u ++ "/" <> "".
Proof. destruct u; discriminate. Qed.

(** X16.  The constructor throws when N8N_URL is unset or empty, with an
    error that names N8N_URL whether or not the key is set; it throws the
    error that names N8N_API_KEY when only the key is unset or empty; with
    both set it builds a client that sends the key in the X-N8N-API-KEY
    header, with a timeout of 30 seconds, under the base URL that ends in
    /api/v1. *)
Theorem constructor_requires_configuration (env : Setup.Env) :
  let url := Setup.or_empty (Setup.N8N_URL env) in
  let key := Setup.or_empty (Setup.N8N_API_KEY env) in
  (url = "" ->
   Setup.constructor env =
   inl (Error "N8N_URL environment variable is required"))
  /\ (url <> "" -> key = "" ->
      Setup.constructor env =
      inl (Error "N8N_API_KEY environment variable is required"))
  /\ (url <> "" -> key <> "" ->
      exists server,
        Setup.constructor env = inr server
        /\ Setup.apiKey server = key
        /\ Setup.headers (Setup.axiosInstance server) =
           [("X-N8N-API-KEY", key); ("Content-Type", "application/json")]
        /\ Setup.timeout (Setup.axiosInstance server) = 30000
        /\ Setup.baseURL (Setup.axiosInstance server) =
           Setup.n8nUrl server ++ "/api/v1").
Proof.
  cbv zeta. unfold Setup.constructor.
  repeat split.
  - intros ->. reflexivity.
  - intros Hurl ->. apply truthy_string in Hurl. now rewrite Hurl.
  - intros Hurl Hkey. apply truthy_string in Hurl, Hkey.
    rewrite Hurl, Hkey. cbn [negb]. eexists. repeat split.
Qed.

Lemma constructor_requires_configuration_witness :
  Setup.constructor {| Setup.N8N_URL := None; Setup.N8N_API_KEY := None |} =
  inl (Error "N8N_URL environment variable is required").
Proof.
  refine (proj1 (constructor_requires_configuration
                   {| Setup.N8N_URL := None; Setup.N8N_API_KEY := None |}) _).
  reflexivity.
Defined.

(** X17.  One slash at the end of N8N_URL makes no difference: the URL with
    it and the URL without it give the same server, whose base URL is the
    URL without it followed by /api/v1.  Only one slash is dropped: of two
    at the end, one stays.  The URL is checked before the slash is dropped,
    so the URL that is a slash alone is accepted and leaves the base URL
    /api/v1. *)
Theorem trailing_slash_is_dropped (u key : string) :
  u <> "" -> key <> "" -> ends_with_slash u = false ->
  let configured url :=
    Setup.constructor
      {| Setup.N8N_URL := Some url; Setup.N8N_API_KEY := Some key |} in
  configured (u ++ "/") = configured u
  /\ (exists server,
         configured u = inr server
         /\ Setup.n8nUrl server = u
         /\ Setup.baseURL (Setup.axiosInstance server) = u ++ "/api/v1")
  /\ (exists server,
         configured ((u ++ "/") ++ "/") = inr server
         /\ Setup.baseURL (Setup.axiosInstance server) =
            (u ++ "/") ++ "/api/v1")
  /\ (exists server,
         configured "/" = inr server
         /\ Setup.n8nUrl server = ""
         /\ Setup.baseURL (Setup.axiosInstance server) = "/api/v1").
Proof.
  intros Hu Hkey Hslash configured. unfold configured, Setup.constructor.
  cbn [Setup.or_empty Setup.N8N_URL Setup.N8N_API_KEY].
  pose proof (proj2 (truthy_string u) Hu) as Tu.
  pose proof (proj2 (truthy_string key) Hkey) as Tkey.
  pose proof (proj2 (truthy_string (u ++ "/")) (app_slash_not_empty u)) as Tu1.
  pose proof (proj2 (truthy_string ((u ++ "/") ++ "/"))
                (app_slash_not_empty (u ++ "/"))) as Tu2.
  rewrite Tu, Tkey, Tu1, Tu2. cbn [negb].
  rewrite !strip_app_slash, (strip_without_slash u Hslash).
  repeat split.
  - eexists. repeat split.
  - eexists. repeat split.
  - apply truthy_string in Hkey. eexists. now repeat split.
Qed.

Lemma trailing_slash_is_dropped_witness :
  Setup.constructor
    {| Setup.N8N_URL := Some "https://n8n.example.com/";
       Setup.N8N_API_KEY := Some "secret" |} =
  Setup.constructor
    {| Setup.N8N_URL := Some "https://n8n.example.com";
       Setup.N8N_API_KEY := Some "secret" |}.
Proof.
  refine (proj1 (trailing_slash_is_dropped "https://n8n.example.com" "secret"
                   _ _ _)).
  - discriminate.
  - discriminate.
  - reflexivity.
Defined.
